(** * drzone: the ecosystem Collector and Reporter

    A shallow embedding of [scripts/query_ecosystem.py] (the Collector) and
    [scripts/generate_reports.py] (the Reporter), and the properties of the
    specification settled against it.

    Conventions of the embedding.
    - A Python [int] is a [Z]; [len] is [length], a [nat].
    - A Python [str] is a [string] that holds its UTF-8 encoding, as the
      source file and the snapshot files do.  [str_len] and [str_take]
      count characters (code points), as [len(s)] and [s[:n]] do;
      [contains] and [startswith] are [in] and [str.startswith]; [lower]
      is [str.lower] on ASCII letters, which is what GitHub logins have.
    - A JSON object read with [.get(key, default)] is a record whose
      fields are options: [None] is an absent key.  Where the code also
      guards against [null] ([x or d], [if x:]) [None] stands for both.
      An object is falsy exactly when it has no key.
    - A [dict] whose iteration order is rendered is an association list in
      insertion order; a [dict] that is only looked up is a [gmap].
    - An exception is a value of [exn]; a loop that may run forever takes
      fuel. *)

From Stdlib Require Import ZArith Lia Ascii String Sorted.
From stdpp Require Import base option list strings gmap pretty.

Local Open Scope string_scope.
Local Open Scope list_scope.

(** ** Python built-ins used by the two scripts *)

Module Py.

(** Truthiness of an optional boolean: absent, [null] and [false] are falsy. *)
Definition truthy (b : option bool) : bool := default false b.

(** [d.get(key, dflt)] on a field that may be absent. *)
Definition get {A} (field : option A) (dflt : A) : A := default dflt field.

Definition lower_char (c : ascii) : ascii :=
  let n := nat_of_ascii c in
  if (65 <=? n)%nat && (n <=? 90)%nat then ascii_of_nat (n + 32) else c.

(** [s.lower()] *)
Fixpoint lower (s : string) : string :=
  match s with
  | EmptyString => EmptyString
  | String c s' => String (lower_char c) (lower s')
  end.

(** [s.startswith(p)] *)
Fixpoint startswith (s p : string) : bool :=
  match p, s with
  | EmptyString, _ => true
  | String _ _, EmptyString => false
  | String a p', String b s' => if Ascii.eqb a b then startswith s' p' else false
  end.

(** [x in s] for strings *)
Fixpoint contains (x s : string) : bool :=
  startswith s x ||
  match s with
  | EmptyString => false
  | String _ s' => contains x s'
  end.

(** [any(x in s for x in xs)] *)
Definition any_in (xs : list string) (s : string) : bool :=
  existsb (fun x => contains x s) xs.

(** A byte that continues a character of several bytes: [10xxxxxx]. *)
Definition is_continuation (c : ascii) : bool :=
  let b := nat_of_ascii c in (128 <=? b)%nat && (b <? 192)%nat.

(** [len(s)]: the number of characters, each one byte that starts it and
    the bytes that continue it. *)
Fixpoint str_len (s : string) : nat :=
  match s with
  | EmptyString => O
  | String c s' => if is_continuation c then str_len s' else S (str_len s')
  end.

(** [s[:n]] for a string and a literal [n >= 0]: the first [n]
    characters, whole. *)
Fixpoint str_take (n : nat) (s : string) : string :=
  match s with
  | EmptyString => EmptyString
  | String c s' =>
    if is_continuation c then String c (str_take n s')
    else match n with
         | O => EmptyString
         | S n' => String c (str_take n' s')
         end
  end.

(** [l[:n]] for a list and any integer [n]: a negative [n] counts from
    the end. *)
Definition slice_to {A} (l : list A) (n : Z) : list A :=
  if (0 <=? n)%Z then take (Z.to_nat n) l
  else take (length l - Z.to_nat (- n)) l.

(** [sorted(l, key=key, reverse=True)]: Python's sort is stable, also
    with [reverse=True], so an element stays in front of the later
    elements whose key is not greater than its own. *)
Section Sorted.
Context {A : Type} (key : A → Z).

Fixpoint insert_desc (x : A) (l : list A) : list A :=
  match l with
  | [] => [x]
  | y :: l' => if (key x <? key y)%Z then y :: insert_desc x l' else x :: l
  end.

Definition sorted_desc (l : list A) : list A :=
  foldr (fun x acc => insert_desc x acc) [] l.
End Sorted.

(** The newline character. *)
Definition nl : string := String (ascii_of_nat 10) EmptyString.

(** The lines of a text, each ended by a newline. *)
Definition text (lines : list string) : string :=
  foldr (fun l acc => l +:+ nl +:+ acc) "" lines.

(** [str(n)] for an integer, as an f-string renders it *)
Definition str_int (n : Z) : string := pretty n.

(** [d[k] += 1] on a [defaultdict(int)] kept in insertion order *)
Fixpoint incr (k : string) (d : list (string * Z)) : list (string * Z) :=
  match d with
  | [] => [(k, 1%Z)]
  | (k', v) :: d' => if String.eqb k k' then (k', (v + 1)%Z) :: d' else (k', v) :: incr k d'
  end.

(** [sum(d.values())] *)
Definition sum_values (d : list (string * Z)) : Z :=
  foldr (fun kv acc => (kv.2 + acc)%Z) 0%Z d.

End Py.

(** ** The records exchanged through the snapshot files

    The fields are those the GraphQL queries of the Collector select and
    the Reporter reads. *)

(** [{ totalCount }] *)
Record counted := { totalCount : option Z }.

Record organization := {
  org_login : option string;
  org_description : option string;
  org_membersWithRole : option counted;
  org_repositories : option counted;
}.

(** [organizations { totalCount nodes { ... } }] of an enterprise *)
Record org_connection := {
  oc_totalCount : option Z;
  oc_nodes : option (list organization);
}.

Record enterprise := {
  ent_name : option string;
  ent_slug : option string;
  ent_url : option string;
  ent_organizations : option org_connection;
  ent_members : option counted;
  ent_viewerIsAdmin : option bool;
}.

(** [primaryLanguage { name }]: a non-null language object *)
Record language := { lang_name : option string }.

(** [owner { login }] *)
Record owner := { owner_login : option string }.

Record repository := {
  repo_nameWithOwner : option string;
  repo_primaryLanguage : option language;
  repo_isPrivate : option bool;
  repo_isFork : option bool;
  repo_isArchived : option bool;
  repo_stargazerCount : option Z;
  repo_updatedAt : option string;
  repo_owner : option owner;
}.

Record user_info := { ui_login : option string }.

(** A follower or a followed user. *)
Record person := { person_login : option string }.

Record starred_repo := { starred_nameWithOwner : option string }.

Record gist := { gist_name : option string }.

(** [summary.json]: the three keys the Collector writes. *)
Record summary := {
  sum_timestamp : option string;
  sum_user : option string;
  sum_counts : option (gmap string Z);
}.

(** The [data/] directory and [README.md]: [None] is a file that does not
    exist. *)
Record store := {
  user_info_json : option user_info;
  organizations_json : option (list organization);
  repositories_json : option (list repository);
  followers_json : option (list person);
  following_json : option (list person);
  starred_repos_json : option (list starred_repo);
  gists_json : option (list gist);
  summary_json : option summary;
  enterprises_json : option (list enterprise);
  readme_md : option string;
}.

Inductive exn :=
| KeyError (key : string)
| HTTPError.

(** How a call ends. *)
Inductive outcome (A : Type) :=
| Returned (a : A)
| Raised (e : exn)
| Exited (status : Z)
| OutOfFuel.
Arguments Returned {A} a.
Arguments Raised {A} e.
Arguments Exited {A} status.
Arguments OutOfFuel {A}.

(** ** The Collector: [scripts/query_ecosystem.py] *)

Module Collector.

(** [pageInfo { hasNextPage endCursor }]; a cursor is a string or [None]. *)
Record page_info := {
  hasNextPage : option bool;
  endCursor : option (option string);
}.

(** What [result.get("data", {}).get("viewer", {}).get(field, {})] is:
    the connection object, all keys absent when any level is missing. *)
Record connection (A : Type) := {
  nodes : option (list A);
  pageInfo : option page_info;
}.
Arguments nodes {A} c.
Arguments pageInfo {A} c.

(** The remote API and the clock, as a machine with a state of type [W].
    [graphql_query] with the query text of one of the six list queries
    and the variables [{"cursor": cursor}] is the matching field; [None]
    is [raise_for_status] raising. *)
Record github (W : Type) := {
  q_viewer : W → option user_info * W;
  q_organizations : W → option string → option (connection organization) * W;
  q_repositories : W → option string → option (connection repository) * W;
  q_followers : W → option string → option (connection person) * W;
  q_following : W → option string → option (connection person) * W;
  q_starredRepositories : W → option string → option (connection starred_repo) * W;
  q_gists : W → option string → option (connection gist) * W;
  utcnow_isoformat : W → string;
}.
Arguments q_viewer {W} g.
Arguments q_organizations {W} g.
Arguments q_repositories {W} g.
Arguments q_followers {W} g.
Arguments q_following {W} g.
Arguments q_starredRepositories {W} g.
Arguments q_gists {W} g.
Arguments utcnow_isoformat {W} g.

(** The result of a fetch, the pages it received in order (a ghost
    trace, for stating the properties), and the state of the API after
    it. *)
Record fetched (W A : Type) := {
  result : outcome (list A);
  pages : list (connection A);
  world : W;
}.
Arguments result {W A} f.
Arguments pages {W A} f.
Arguments world {W A} f.

Section Pagination.
Context {W A : Type}.
Variable query : W → option string → option (connection A) * W.

(** The body shared by the six [get_*] loops.  [guard] is the loop
    condition on the accumulated list ([True], or [len(acc) < limit]);
    the loop returns the accumulated list. *)
Fixpoint fetch_loop (guard : list A → bool) (fuel : nat) (w : W)
    (acc : list A) (cursor : option string) (seen : list (connection A))
    : fetched W A :=
  if negb (guard acc) then
    {| result := Returned acc; pages := seen; world := w |}
  else
    match fuel with
    | O => {| result := OutOfFuel; pages := seen; world := w |}
    | S fuel' =>
      match query w cursor with
      | (None, w') => {| result := Raised HTTPError; pages := seen; world := w' |}
      | (Some data, w') =>
        let acc' := acc ++ Py.get (nodes data) [] in
        let seen' := seen ++ [data] in
        if negb (Py.truthy (hasNextPage (Py.get (pageInfo data)
                               {| hasNextPage := None; endCursor := None |})))
        then {| result := Returned acc'; pages := seen'; world := w' |}
        else
          match pageInfo data ≫= endCursor with
          | None => {| result := Raised (KeyError "endCursor");
                       pages := seen'; world := w' |}
          | Some cursor' => fetch_loop guard fuel' w' acc' cursor' seen'
          end
      end
    end.

(** [while True: ...; return acc] *)
Definition fetch_all (fuel : nat) (w : W) : fetched W A :=
  fetch_loop (fun _ => true) fuel w [] None [].

(** [while len(acc) < limit: ...; return acc[:limit]] *)
Definition fetch_limit (limit : Z) (fuel : nat) (w : W) : fetched W A :=
  let r := fetch_loop (fun acc => (Z.of_nat (length acc) <? limit)%Z) fuel w [] None [] in
  match result r with
  | Returned acc =>
    {| result := Returned (Py.slice_to acc limit); pages := pages r; world := world r |}
  | _ => r
  end.
End Pagination.

Section Fetches.
Context {W : Type} (api : github W).

Definition get_user_info (w : W) : outcome user_info * W :=
  match q_viewer api w with
  | (None, w') => (Raised HTTPError, w')
  | (Some u, w') => (Returned u, w')
  end.

Definition get_organizations := fetch_all (q_organizations api).
Definition get_repositories (limit : Z) := fetch_limit (q_repositories api) limit.
Definition get_followers := fetch_all (q_followers api).
Definition get_following := fetch_all (q_following api).
Definition get_starred_repos (limit : Z) := fetch_limit (q_starredRepositories api) limit.
Definition get_gists := fetch_all (q_gists api).
End Fetches.

(** The items of a page, and of a sequence of pages. *)
Definition page_items {A} (p : connection A) : list A := Py.get (nodes p) [].
Definition accumulation {A} (ps : list (connection A)) : list A :=
  concat (map page_items ps).
Definition page_sizes {A} (ps : list (connection A)) : nat :=
  foldr (fun p n => (length (page_items p) + n)%nat) 0%nat ps.

End Collector.

(** ** Files of the store, written one at a time *)

Module Files.
Definition write_user_info (d : user_info) (st : store) : store :=
  {| user_info_json := Some d; organizations_json := organizations_json st;
     repositories_json := repositories_json st; followers_json := followers_json st;
     following_json := following_json st; starred_repos_json := starred_repos_json st;
     gists_json := gists_json st; summary_json := summary_json st;
     enterprises_json := enterprises_json st; readme_md := readme_md st |}.
Definition write_organizations (d : list organization) (st : store) : store :=
  {| user_info_json := user_info_json st; organizations_json := Some d;
     repositories_json := repositories_json st; followers_json := followers_json st;
     following_json := following_json st; starred_repos_json := starred_repos_json st;
     gists_json := gists_json st; summary_json := summary_json st;
     enterprises_json := enterprises_json st; readme_md := readme_md st |}.
Definition write_repositories (d : list repository) (st : store) : store :=
  {| user_info_json := user_info_json st; organizations_json := organizations_json st;
     repositories_json := Some d; followers_json := followers_json st;
     following_json := following_json st; starred_repos_json := starred_repos_json st;
     gists_json := gists_json st; summary_json := summary_json st;
     enterprises_json := enterprises_json st; readme_md := readme_md st |}.
Definition write_followers (d : list person) (st : store) : store :=
  {| user_info_json := user_info_json st; organizations_json := organizations_json st;
     repositories_json := repositories_json st; followers_json := Some d;
     following_json := following_json st; starred_repos_json := starred_repos_json st;
     gists_json := gists_json st; summary_json := summary_json st;
     enterprises_json := enterprises_json st; readme_md := readme_md st |}.
Definition write_following (d : list person) (st : store) : store :=
  {| user_info_json := user_info_json st; organizations_json := organizations_json st;
     repositories_json := repositories_json st; followers_json := followers_json st;
     following_json := Some d; starred_repos_json := starred_repos_json st;
     gists_json := gists_json st; summary_json := summary_json st;
     enterprises_json := enterprises_json st; readme_md := readme_md st |}.
Definition write_starred_repos (d : list starred_repo) (st : store) : store :=
  {| user_info_json := user_info_json st; organizations_json := organizations_json st;
     repositories_json := repositories_json st; followers_json := followers_json st;
     following_json := following_json st; starred_repos_json := Some d;
     gists_json := gists_json st; summary_json := summary_json st;
     enterprises_json := enterprises_json st; readme_md := readme_md st |}.
Definition write_gists (d : list gist) (st : store) : store :=
  {| user_info_json := user_info_json st; organizations_json := organizations_json st;
     repositories_json := repositories_json st; followers_json := followers_json st;
     following_json := following_json st; starred_repos_json := starred_repos_json st;
     gists_json := Some d; summary_json := summary_json st;
     enterprises_json := enterprises_json st; readme_md := readme_md st |}.
Definition write_summary (d : summary) (st : store) : store :=
  {| user_info_json := user_info_json st; organizations_json := organizations_json st;
     repositories_json := repositories_json st; followers_json := followers_json st;
     following_json := following_json st; starred_repos_json := starred_repos_json st;
     gists_json := gists_json st; summary_json := Some d;
     enterprises_json := enterprises_json st; readme_md := readme_md st |}.
Definition write_readme (d : string) (st : store) : store :=
  {| user_info_json := user_info_json st; organizations_json := organizations_json st;
     repositories_json := repositories_json st; followers_json := followers_json st;
     following_json := following_json st; starred_repos_json := starred_repos_json st;
     gists_json := gists_json st; summary_json := summary_json st;
     enterprises_json := enterprises_json st; readme_md := Some d |}.
End Files.

(** ** The Collector's [main] *)

Module CollectorMain.
Import Collector.

(** What a run of the Collector acts on: the API, the files, the
    terminal. *)
Record state (W : Type) := {
  api_state : W;
  files : store;
  stdout : list string;
}.
Arguments api_state {W} s.
Arguments files {W} s.
Arguments stdout {W} s.

Definition M (W A : Type) : Type := state W → outcome A * state W.

Definition ret {W A} (a : A) : M W A := fun s => (Returned a, s).

Definition bind {W A B} (c : M W A) (k : A → M W B) : M W B :=
  fun s =>
    match c s with
    | (Returned a, s') => k a s'
    | (Raised e, s') => (Raised e, s')
    | (Exited n, s') => (Exited n, s')
    | (OutOfFuel, s') => (OutOfFuel, s')
    end.

#[export] Instance M_bind {W} : MBind (M W) := fun A B k c => bind c k.

Definition print {W} (line : string) : M W unit :=
  fun s => (Returned tt,
            {| api_state := api_state s; files := files s; stdout := stdout s ++ [line] |}).

Definition exit {W A} (status : Z) : M W A := fun s => (Exited status, s).

(** [save_data(filename, data)]: the file is written, then reported. *)
Definition save_data {W} (filename : string) (write : store → store) : M W unit :=
  fun s => (Returned tt,
            {| api_state := api_state s; files := write (files s);
               stdout := stdout s ++ ["Saved data/" +:+ filename] |}).

Definition call_fetch {W A} (f : W → fetched W A) : M W (list A) :=
  fun s => let r := f (api_state s) in
           (result r, {| api_state := world r; files := files s; stdout := stdout s |}).

Definition call {W A} (f : W → outcome A * W) : M W A :=
  fun s => let r := f (api_state s) in
           (r.1, {| api_state := r.2; files := files s; stdout := stdout s |}).

Definition now {W} (api : github W) : M W string :=
  fun s => (Returned (utcnow_isoformat api (api_state s)), s).

Definition rule : string := "============================================================".

Definition len {A} (l : list A) : Z := Z.of_nat (length l).

(** The [summary] dictionary of [main]. *)
Definition make_summary (timestamp : string) (u : user_info)
    (orgs : list organization) (repos : list repository)
    (followers following : list person) (starred : list starred_repo)
    (gists : list gist) : summary :=
  {| sum_timestamp := Some (timestamp +:+ "Z");
     sum_user := ui_login u;
     sum_counts := Some (<["gists" := len gists]>
                        (<["starred_repos" := len starred]>
                        (<["following" := len following]>
                        (<["followers" := len followers]>
                        (<["repositories" := len repos]>
                        (<["organizations" := len orgs]> ∅)))))) |}.

Section Main.
Context {W : Type} (api : github W).
(** The environment variable [GITHUB_TOKEN]. *)
Variable TOKEN : option string.
Variable fuel : nat.

Definition main : M W unit :=
  _ ← print rule;
  _ ← print "DrZo Ecosystem Query";
  t0 ← now api;
  _ ← print ("Timestamp: " +:+ t0 +:+ "Z");
  _ ← print rule;
  match TOKEN with
  | None | Some "" =>
    _ ← print "ERROR: GITHUB_TOKEN environment variable not set";
    exit 1
  | Some _ =>
    _ ← print (Py.nl +:+ "[1/7] Querying user info...");
    user_info ← call (get_user_info api);
    _ ← save_data "user_info.json" (Files.write_user_info user_info);
    _ ← print ("  User: " +:+ Py.get (ui_login user_info) "None");
    _ ← print (Py.nl +:+ "[2/7] Querying organizations...");
    orgs ← call_fetch (get_organizations api fuel);
    _ ← save_data "organizations.json" (Files.write_organizations orgs);
    _ ← print ("  Found " +:+ Py.str_int (len orgs) +:+ " organizations");
    _ ← print (Py.nl +:+ "[3/7] Querying repositories (up to 1000)...");
    repos ← call_fetch (get_repositories api 1000 fuel);
    _ ← save_data "repositories.json" (Files.write_repositories repos);
    _ ← print ("  Found " +:+ Py.str_int (len repos) +:+ " repositories");
    _ ← print (Py.nl +:+ "[4/7] Querying followers...");
    followers ← call_fetch (get_followers api fuel);
    _ ← save_data "followers.json" (Files.write_followers followers);
    _ ← print ("  Found " +:+ Py.str_int (len followers) +:+ " followers");
    _ ← print (Py.nl +:+ "[5/7] Querying following...");
    following ← call_fetch (get_following api fuel);
    _ ← save_data "following.json" (Files.write_following following);
    _ ← print ("  Found " +:+ Py.str_int (len following) +:+ " following");
    _ ← print (Py.nl +:+ "[6/7] Querying starred repositories...");
    starred ← call_fetch (get_starred_repos api 500 fuel);
    _ ← save_data "starred_repos.json" (Files.write_starred_repos starred);
    _ ← print ("  Found " +:+ Py.str_int (len starred) +:+ " starred repos");
    _ ← print (Py.nl +:+ "[7/7] Querying gists...");
    gists ← call_fetch (get_gists api fuel);
    _ ← save_data "gists.json" (Files.write_gists gists);
    _ ← print ("  Found " +:+ Py.str_int (len gists) +:+ " gists");
    t1 ← now api;
    _ ← save_data "summary.json"
          (Files.write_summary
             (make_summary t1 user_info orgs repos followers following starred gists));
    _ ← print (Py.nl +:+ rule);
    _ ← print "Ecosystem query complete!";
    print rule
  end.
End Main.
End CollectorMain.

(** ** The Reporter: [scripts/generate_reports.py] *)

Module Reporter.

(** [load_json(filename)]: the document, or [None] when the file does
    not exist. *)
Definition load_json {A} (file : store → option A) (st : store) : option A := file st.

(** [x.get('repositories', {}).get('totalCount', 0)], and the same for
    the other counted fields. *)
Definition count_of (c : option counted) : Z :=
  Py.get (totalCount (Py.get c {| totalCount := None |})) 0%Z.

(** [ent.get('organizations', {})] *)
Definition organizations_of (ent : enterprise) : org_connection :=
  Py.get (ent_organizations ent) {| oc_totalCount := None; oc_nodes := None |}.

(** *** [map_orgs_to_enterprises] *)

Record parent := { enterprise_name : string; enterprise_slug : string }.

Definition map_orgs_to_enterprises (enterprises : list enterprise)
    : gmap (option string) parent :=
  fold_left
    (fun mapping ent =>
       let ent_name := Py.get (ent_name ent) "Unknown" in
       let ent_slug := Py.get (ent_slug ent) "" in
       fold_left
         (fun mapping org =>
            <[org_login org := {| enterprise_name := ent_name;
                                  enterprise_slug := ent_slug |}]> mapping)
         (Py.get (oc_nodes (organizations_of ent)) [])
         mapping)
    enterprises ∅.

(** *** [categorize_organizations] *)

(** The keys of [categories], in the order of the dictionary literal. *)
Definition category_names : list string :=
  ["Core Cognitive"; "Zone Network"; "RegimA Network"; "O9 Network";
   "Echo Mirrors"; "Special Purpose"; "Other"].

(** The [if]/[elif] chain on the lowercased login: the key of the list
    the organization is appended to. *)
Definition category_of_login (login : string) : string :=
  if Py.any_in ["cog"; "oz"; "echo"] login then "Core Cognitive"
  else if Py.any_in ["zone"; "rez"; "rzone"] login then "Zone Network"
  else if Py.contains "regima" login then "RegimA Network"
  else if Py.startswith login "o9" || Py.startswith login "o6" || Py.contains "e9" login
       then "O9 Network"
  else if Py.contains "org-echo" login then "Echo Mirrors"
  else if Py.any_in ["unicorn"; "cosmic"; "kaw"; "hyper"; "marduk"; "gnn"] login
       then "Special Purpose"
  else "Other".

Definition category_of (org : organization) : string :=
  category_of_login (Py.lower (Py.get (org_login org) "")).

(** [categories[key].append(org)] *)
Definition append_to (key : string) (org : organization)
    (categories : list (string * list organization)) : list (string * list organization) :=
  map (fun kv => if String.eqb kv.1 key then (kv.1, kv.2 ++ [org]) else kv) categories.

Definition is_empty {A} (l : list A) : bool :=
  match l with [] => true | _ => false end.

Definition categorize_organizations (orgs : list organization)
    : list (string * list organization) :=
  let categories := map (fun k => (k, [])) category_names in
  let categories :=
    fold_left (fun categories org => append_to (category_of org) org categories)
              orgs categories in
  List.filter (fun kv => negb (is_empty kv.2)) categories.

(** *** [analyze_repositories] *)

Record stats := {
  public : Z;
  private : Z;
  forks : Z;
  original : Z;
  archived : Z;
  languages : list (string * Z);
  by_owner : list (string * Z);
}.

(** [if lang:] on [repo.get('primaryLanguage')]: an object with no key
    is falsy, like [null]. *)
Definition language_truthy (lang : option language) : bool :=
  match lang with
  | Some l => match lang_name l with Some _ => true | None => false end
  | None => false
  end.

Definition language_name (lang : option language) : string :=
  Py.get (lang ≫= lang_name) "Unknown".

Definition analyze_step (s : stats) (repo : repository) : stats :=
  let is_private := Py.truthy (repo_isPrivate repo) in
  let is_fork := Py.truthy (repo_isFork repo) in
  let lang := repo_primaryLanguage repo in
  let owner := Py.get (owner_login (Py.get (repo_owner repo) {| owner_login := None |}))
                      "Unknown" in
  {| public := if is_private then public s else (public s + 1)%Z;
     private := if is_private then (private s + 1)%Z else private s;
     forks := if is_fork then (forks s + 1)%Z else forks s;
     original := if is_fork then original s else (original s + 1)%Z;
     archived := if Py.truthy (repo_isArchived repo) then (archived s + 1)%Z else archived s;
     languages := if language_truthy lang then Py.incr (language_name lang) (languages s)
                  else languages s;
     by_owner := Py.incr owner (by_owner s) |}.

Definition analyze_repositories (repos : list repository) : stats :=
  fold_left analyze_step repos
    {| public := 0; private := 0; forks := 0; original := 0; archived := 0;
       languages := []; by_owner := [] |}.

(** *** [generate_readme] *)

(** [if not summary]: a summary with no key is falsy, like a missing one. *)
Definition summary_truthy (s : option summary) : bool :=
  match s with
  | Some s => match sum_timestamp s, sum_user s, sum_counts s with
              | None, None, None => false
              | _, _, _ => true
              end
  | None => false
  end.

(** [d[key]] *)
Definition item (d : gmap string Z) (key : string) : outcome Z :=
  match d !! key with
  | Some v => Returned v
  | None => Raised (KeyError key)
  end.

Definition obind {A B} (c : outcome A) (k : A → outcome B) : outcome B :=
  match c with
  | Returned a => k a
  | Raised e => Raised e
  | Exited n => Exited n
  | OutOfFuel => OutOfFuel
  end.

#[export] Instance outcome_bind : MBind outcome := fun A B k c => obind c k.

(** The cell of the Overview table for the number of enterprises:
    [summary['counts'].get('enterprises', 0)]. *)
Definition enterprises_cell (counts : gmap string Z) : string :=
  Py.str_int (Py.get (counts !! "enterprises") 0%Z).

(** The value shown after [**Last Updated:**]. *)
Definition last_updated (s : summary) : string := Py.get (sum_timestamp s) "Unknown".

(** The first f-string: title, header and Overview table. *)
Definition overview (s : summary) : outcome string :=
  match sum_counts s with
  | None => Raised (KeyError "counts")
  | Some counts =>
    organizations ← item counts "organizations";
    repositories ← item counts "repositories";
    followers ← item counts "followers";
    following ← item counts "following";
    starred_repos ← item counts "starred_repos";
    gists ← item counts "gists";
    Returned (Py.text [
      "# DrZone - Ecosystem Dashboard";
      "";
      "> Automated ecosystem tracking for the drzo GitHub network";
      "";
      "**Last Updated:** " +:+ last_updated s;
      "";
      "## 📊 Overview";
      "";
      "| Metric | Count |";
      "|--------|-------|";
      "| Enterprises | " +:+ enterprises_cell counts +:+ " |";
      "| Organizations | " +:+ Py.str_int organizations +:+ " |";
      "| Repositories | " +:+ Py.str_int repositories +:+ " |";
      "| Followers | " +:+ Py.str_int followers +:+ " |";
      "| Following | " +:+ Py.str_int following +:+ " |";
      "| Starred Repos | " +:+ Py.str_int starred_repos +:+ " |";
      "| Gists | " +:+ Py.str_int gists +:+ " |";
      "";
      "## 🏛️ Enterprises";
      ""])
  end.

Definition enterprise_row (ent : enterprise) : string :=
  let name := Py.get (ent_name ent) "Unknown" in
  let slug := Py.get (ent_slug ent) "" in
  let url := Py.get (ent_url ent) ("https://github.com/enterprises/" +:+ slug) in
  let org_count := Py.get (oc_totalCount (organizations_of ent)) 0%Z in
  let member_count := count_of (ent_members ent) in
  let is_admin := if Py.truthy (ent_viewerIsAdmin ent) then "✅" else "❌" in
  "| [" +:+ name +:+ "](" +:+ url +:+ ") | `" +:+ slug +:+ "` | "
    +:+ Py.str_int org_count +:+ " | " +:+ Py.str_int member_count +:+ " | "
    +:+ is_admin +:+ " |" +:+ Py.nl.

(** A row of an organization table; [budget] is the number of characters
    kept of the description. *)
Definition org_row (budget : nat) (org : organization) : string :=
  let login := Py.get (org_login org) "Unknown" in
  let repo_count := count_of (org_repositories org) in
  let member_count := count_of (org_membersWithRole org) in
  let desc := Py.str_take budget
                (match org_description org with
                 | None | Some "" => "No description"
                 | Some d => d
                 end) in
  "| [" +:+ login +:+ "](https://github.com/" +:+ login +:+ ") | "
    +:+ Py.str_int repo_count +:+ " | " +:+ Py.str_int member_count +:+ " | "
    +:+ desc +:+ " |" +:+ Py.nl.

Definition org_table_head : string :=
  Py.text ["| Organization | Repos | Members | Description |";
           "|--------------|-------|---------|-------------|"].

Definition concat_str (l : list string) : string := foldr String.append "" l.

Definition by_repo_count (org : organization) : Z := count_of (org_repositories org).

Definition enterprise_mapping (ent : enterprise) : string :=
  let ent_name := Py.get (ent_name ent) "Unknown" in
  let ent_slug := Py.get (ent_slug ent) "" in
  let ent_orgs := Py.get (oc_nodes (organizations_of ent)) [] in
  if is_empty ent_orgs then ""
  else
    "#### " +:+ ent_name +:+ " (`" +:+ ent_slug +:+ "`)" +:+ Py.nl +:+ Py.nl
      +:+ org_table_head
      +:+ concat_str (map (org_row 40) (Py.sorted_desc by_repo_count ent_orgs))
      +:+ Py.nl.

Definition enterprises_section (enterprises : list enterprise) : string :=
  if is_empty enterprises then "*No enterprise data available*" +:+ Py.nl +:+ Py.nl
  else
    Py.text ["| Enterprise | Slug | Organizations | Members | Admin |";
             "|------------|------|---------------|---------|-------|"]
      +:+ concat_str (map enterprise_row enterprises)
      +:+ Py.text [""; "### Enterprise → Organization Mapping"; ""]
      +:+ concat_str (map enterprise_mapping enterprises).

(** The organizations listed under a category. *)
Definition listed (org_list : list organization) : list organization :=
  take 10 (Py.sorted_desc by_repo_count org_list).

Definition category_section (kv : string * list organization) : string :=
  let '(category, org_list) := kv in
  if is_empty org_list then ""
  else
    "### " +:+ category +:+ Py.nl +:+ Py.nl
      +:+ org_table_head
      +:+ concat_str (map (org_row 50) (listed org_list))
      +:+ Py.nl.

Definition categories_section (org_categories : list (string * list organization)) : string :=
  Py.text ["## 🏢 Organization Categories"; ""]
    +:+ concat_str (map category_section org_categories).

Definition repo_row (repo : repository) : string :=
  let name := Py.get (repo_nameWithOwner repo) "Unknown" in
  let lang := repo_primaryLanguage repo in
  let lang_name := if language_truthy lang then language_name lang else "Unknown" in
  let stars := Py.get (repo_stargazerCount repo) 0%Z in
  let updated := Py.str_take 10 (Py.get (repo_updatedAt repo) "") in
  "| [" +:+ name +:+ "](https://github.com/" +:+ name +:+ ") | " +:+ lang_name
    +:+ " | " +:+ Py.str_int stars +:+ " | " +:+ updated +:+ " |" +:+ Py.nl.

Definition data_files_and_schedule : string :=
  Py.text [
    "";
    "## 📁 Data Files";
    "";
    "The following data files are automatically updated:";
    "";
    "- [`data/summary.json`](data/summary.json) - Overview statistics";
    "- [`data/enterprises.json`](data/enterprises.json) - Enterprise details";
    "- [`data/organizations.json`](data/organizations.json) - Organization details";
    "- [`data/repositories.json`](data/repositories.json) - Repository listings";
    "- [`data/followers.json`](data/followers.json) - Follower information";
    "- [`data/following.json`](data/following.json) - Following information";
    "- [`data/starred_repos.json`](data/starred_repos.json) - Starred repositories";
    "- [`data/gists.json`](data/gists.json) - Gist information";
    "";
    "## 🔄 Update Schedule";
    "";
    "This dashboard is automatically updated every **Sunday at 00:00 UTC** via GitHub Actions.";
    "";
    "You can also trigger a manual update from the [Actions tab](../../actions/workflows/update-ecosystem.yml).";
    "";
    "---";
    "";
    "*Generated by [DrZone Ecosystem Tracker](https://github.com/cogcities/drzone)*"].

Section Rendering.
(** [f"{count / total * 100:.1f}"] for [total > 0]: floating-point
    division and formatting, left to the caller. *)
Variable percent_1f : Z → Z → string.

Definition language_row (total_with_lang : Z) (kv : string * Z) : string :=
  let '(lang, count) := kv in
  let pct := if (0 <? total_with_lang)%Z then percent_1f count total_with_lang
             else "0.0" in
  "| " +:+ lang +:+ " | " +:+ Py.str_int count +:+ " | " +:+ pct +:+ "% |" +:+ Py.nl.

Definition statistics_section (repos : list repository) (repo_stats : stats) : string :=
  Py.text [
    "## 💻 Repository Statistics";
    "";
    "| Metric | Value |";
    "|--------|-------|";
    "| Total Repositories | " +:+ Py.str_int (Z.of_nat (length repos)) +:+ " |";
    "| Public | " +:+ Py.str_int (public repo_stats) +:+ " |";
    "| Private | " +:+ Py.str_int (private repo_stats) +:+ " |";
    "| Forks | " +:+ Py.str_int (forks repo_stats) +:+ " |";
    "| Original | " +:+ Py.str_int (original repo_stats) +:+ " |";
    "| Archived | " +:+ Py.str_int (archived repo_stats) +:+ " |";
    "";
    "### Top Languages";
    "";
    "| Language | Count | Percentage |";
    "|----------|-------|------------|"]
  +:+ (let total_with_lang := Py.sum_values (languages repo_stats) in
       concat_str (map (language_row total_with_lang)
                       (take 10 (Py.sorted_desc snd (languages repo_stats)))))
  +:+ Py.text [
    "";
    "### Recently Updated Repositories";
    "";
    "| Repository | Language | Stars | Updated |";
    "|------------|----------|-------|---------|"]
  +:+ concat_str (map repo_row (take 15 repos)).

(** The value of [content] when it is written. *)
Definition content (summary : summary) (enterprises : list enterprise)
    (orgs : list organization) (repos : list repository) : outcome string :=
  let org_categories := categorize_organizations orgs in
  let repo_stats := analyze_repositories repos in
  let enterprise_org_map := map_orgs_to_enterprises enterprises in
  head ← overview summary;
  Returned (head
              +:+ enterprises_section enterprises
              +:+ categories_section org_categories
              +:+ statistics_section repos repo_stats
              +:+ data_files_and_schedule).

(** What a run leaves: how it ended, the files, the lines printed. *)
Record run := {
  ended : outcome unit;
  files : store;
  stdout : list string;
}.

Definition generate_readme (st : store) : run :=
  let summary := load_json summary_json st in
  let user_info := load_json user_info_json st in
  let enterprises := Py.get (load_json enterprises_json st) [] in
  let orgs := Py.get (load_json organizations_json st) [] in
  let repos := Py.get (load_json repositories_json st) [] in
  match summary with
  | Some s =>
    if summary_truthy summary then
      match content s enterprises orgs repos with
      | Returned c =>
        {| ended := Returned tt; files := Files.write_readme c st;
           stdout := ["Generated README.md"] |}
      | Raised e => {| ended := Raised e; files := st; stdout := [] |}
      | Exited n => {| ended := Exited n; files := st; stdout := [] |}
      | OutOfFuel => {| ended := OutOfFuel; files := st; stdout := [] |}
      end
    else
      {| ended := Returned tt; files := st;
         stdout := ["No summary data found, skipping README generation"] |}
  | None =>
    {| ended := Returned tt; files := st;
       stdout := ["No summary data found, skipping README generation"] |}
  end.

Definition rule : string := "============================================================".

(** [main]; [utcnow] is the clock's [datetime.utcnow().isoformat()]. *)
Definition main (utcnow : string) (st : store) : run :=
  let banner := [rule; "DrZo Ecosystem Report Generator";
                 "Timestamp: " +:+ utcnow +:+ "Z"; rule] in
  let r := generate_readme st in
  match ended r with
  | Returned _ =>
    {| ended := Returned tt; files := files r;
       stdout := banner ++ stdout r
                   ++ [Py.nl +:+ rule; "Report generation complete!"; rule] |}
  | _ => {| ended := ended r; files := files r; stdout := banner ++ stdout r |}
  end.
End Rendering.

End Reporter.

(** ** Notions the properties are stated with *)

Module Spec.
Import Collector.

(** Descending by key. *)
Definition desc {A} (key : A → Z) (a b : A) : Prop := (key b ≤ key a)%Z.

(** The categorization as the specification words it: an ordered list of
    (predicate on the lowercased login, category) pairs, the first match
    wins, and what matches nothing falls in the catch-all. *)
Definition rules : list ((string → bool) * string) :=
  [(Py.any_in ["cog"; "oz"; "echo"], "Core Cognitive");
   (Py.any_in ["zone"; "rez"; "rzone"], "Zone Network");
   (Py.contains "regima", "RegimA Network");
   (fun login => Py.startswith login "o9" || Py.startswith login "o6"
                 || Py.contains "e9" login, "O9 Network");
   (Py.contains "org-echo", "Echo Mirrors");
   (Py.any_in ["unicorn"; "cosmic"; "kaw"; "hyper"; "marduk"; "gnn"], "Special Purpose")].

Fixpoint first_match (rs : list ((string → bool) * string)) (catch_all login : string)
    : string :=
  match rs with
  | [] => catch_all
  | (p, category) :: rs' => if p login then category else first_match rs' catch_all login
  end.

(** The organizations of [orgs] that belong to [category], in the order
    of [orgs]. *)
Definition members (category : string) (orgs : list organization) : list organization :=
  filter (λ org, Reporter.category_of org = category) orgs.

(** The dictionary of [categorize_organizations] before the empty lists
    are removed, after the organizations [orgs] were appended. *)
Definition filled (orgs : list organization) : list (string * list organization) :=
  map (fun k => (k, members k orgs)) Reporter.category_names.

(** The repositories without a primary language. *)
Definition no_language (repos : list repository) : Z :=
  Z.of_nat (length (filter (λ r, Reporter.language_truthy (repo_primaryLanguage r) = false)
                           repos)).

(** Every request of a fetch was made while fewer than [limit] items had
    been accumulated. *)
Definition requested_below {A} (limit : Z) (ps : list (connection A)) : Prop :=
  ∀ before p after, ps = before ++ p :: after →
    (Z.of_nat (length (accumulation before)) < limit)%Z.

(** [res] is the concatenation of the pages [ps], in the order received. *)
Definition concatenation_of {A} (ps : list (connection A)) (res : list A) : Prop :=
  res = accumulation ps ∧ length res = page_sizes ps.

(** [res] is what a fetch limited to [limit] items returns when it
    received the pages [ps] from [query] started in [w]: at most [limit]
    items, the first [limit] of the accumulated pages, asked for only
    while fewer than [limit] items were there, and a prefix of what the
    fetch without a limit accumulates. *)
Definition truncation_of {W A} (query : W → option string → option (connection A) * W)
    (w : W) (limit : Z) (ps : list (connection A)) (res : list A) : Prop :=
  (Z.of_nat (length res) ≤ limit)%Z ∧
  res = take (Z.to_nat limit) (accumulation ps) ∧
  requested_below limit ps ∧
  ∀ fuel all, result (fetch_all query fuel w) = Returned all →
    res = take (Z.to_nat limit) all ∧ res `prefix_of` all.

(** The title and header of the report, up to the timestamp shown. *)
Definition report_head (timestamp : string) : string :=
  Py.text ["# DrZone - Ecosystem Dashboard";
           "";
           "> Automated ecosystem tracking for the drzo GitHub network";
           "";
           "**Last Updated:** " +:+ timestamp].

(** The head of the Overview table, up to the row of the enterprises. *)
Definition overview_head (enterprises : string) : string :=
  Py.text ["";
           "## 📊 Overview";
           "";
           "| Metric | Count |";
           "|--------|-------|";
           "| Enterprises | " +:+ enterprises +:+ " |"].

(** The logins of the organizations nested in an enterprise. *)
Definition nested_logins (ent : enterprise) : list (option string) :=
  map org_login (Py.get (oc_nodes (Reporter.organizations_of ent)) []).

Definition parent_of (ent : enterprise) : Reporter.parent :=
  {| Reporter.enterprise_name := Py.get (ent_name ent) "Unknown";
     Reporter.enterprise_slug := Py.get (ent_slug ent) "" |}.

(** Two stores hold the same four snapshots the Reporter renders. *)
Definition same_snapshots (st1 st2 : store) : Prop :=
  summary_json st1 = summary_json st2 ∧
  enterprises_json st1 = enterprises_json st2 ∧
  organizations_json st1 = organizations_json st2 ∧
  repositories_json st1 = repositories_json st2.
End Spec.

(** ** Fixtures: a small API and a small store to run the code on *)

Module Demo.
Import Collector.

Definition org (login : string) (repos : Z) : organization :=
  {| org_login := Some login; org_description := None; org_membersWithRole := None;
     org_repositories := Some {| totalCount := Some repos |} |}.

Definition repo (name : string) (lang : option string) (is_private is_fork : bool)
    : repository :=
  {| repo_nameWithOwner := Some name;
     repo_primaryLanguage := match lang with
                             | Some l => Some {| lang_name := Some l |}
                             | None => None
                             end;
     repo_isPrivate := Some is_private; repo_isFork := Some is_fork;
     repo_isArchived := None; repo_stargazerCount := None; repo_updatedAt := None;
     repo_owner := None |}.

Definition ent (name slug : string) (orgs : list organization) : enterprise :=
  {| ent_name := Some name; ent_slug := Some slug; ent_url := None;
     ent_organizations := Some {| oc_totalCount := Some (Z.of_nat (length orgs));
                                  oc_nodes := Some orgs |};
     ent_members := None; ent_viewerIsAdmin := Some true |}.

(** A listing served in two pages: [first] with a next page at cursor
    ["c1"], then [second]; any other cursor is refused. *)
Definition two_pages {A} (first second : list A) (w : nat) (cursor : option string)
    : option (connection A) * nat :=
  match cursor with
  | None =>
    (Some {| nodes := Some first;
             pageInfo := Some {| hasNextPage := Some true; endCursor := Some (Some "c1") |} |},
     S w)
  | Some "c1" =>
    (Some {| nodes := Some second;
             pageInfo := Some {| hasNextPage := Some false; endCursor := Some None |} |},
     S w)
  | Some _ => (None, S w)
  end.

(** The state counts the requests served. *)
Definition api : github nat :=
  {| q_viewer := fun w => (Some {| ui_login := Some "drzo" |}, S w);
     q_organizations := two_pages [org "cogcities" 12; org "regima-uk" 3] [org "o9nn" 7];
     q_repositories :=
       two_pages [repo "drzo/a" (Some "Go") false true; repo "drzo/b" None true false]
                 [repo "drzo/c" (Some "Go") false false];
     q_followers := two_pages [{| person_login := Some "f1" |}] [];
     q_following := two_pages [] [{| person_login := Some "g1" |}];
     q_starredRepositories :=
       two_pages [{| starred_nameWithOwner := Some "x/y" |};
                  {| starred_nameWithOwner := Some "x/z" |}] [];
     q_gists := two_pages [{| gist_name := Some "g" |}] [];
     utcnow_isoformat := fun w => "2024-06-01T00:00:00." +:+ Py.str_int (Z.of_nat w) |}.

Definition enterprises : list enterprise :=
  [ent "Alpha" "alpha" [org "cogcities" 12; org "shared" 1];
   ent "Beta" "beta" [org "shared" 1]].

Definition empty_store : store :=
  {| user_info_json := None; organizations_json := None; repositories_json := None;
     followers_json := None; following_json := None; starred_repos_json := None;
     gists_json := None; summary_json := None; enterprises_json := None;
     readme_md := None |}.

(** A [data/] directory that holds only [enterprises.json]. *)
Definition only_enterprises : store :=
  {| user_info_json := None; organizations_json := None; repositories_json := None;
     followers_json := None; following_json := None; starred_repos_json := None;
     gists_json := None; summary_json := None; enterprises_json := Some enterprises;
     readme_md := None |}.

Definition start (st : store) : CollectorMain.state nat :=
  {| CollectorMain.api_state := 0%nat; CollectorMain.files := st;
     CollectorMain.stdout := [] |}.

(** The store a Collector run leaves from [only_enterprises]. *)
Definition collected : store :=
  CollectorMain.files (CollectorMain.main api (Some "token") 5 (start only_enterprises)).2.

(** The same snapshots with other followers and another user: only
    files the Reporter does not render differ. *)
Definition collected' : store :=
  Files.write_followers [] (Files.write_user_info {| ui_login := None |} collected).

(** A summary with only the count of the organizations, and a store that
    holds only it. *)
Definition partial_summary : summary :=
  {| sum_timestamp := None; sum_user := None;
     sum_counts := Some (<["organizations" := 3%Z]> ∅) |}.

Definition partial_store : store := Files.write_summary partial_summary empty_store.

(** An organization whose description has 45 characters of two bytes
    each, and one whose description has 58 characters. *)
Definition org_accented : organization :=
  {| org_login := Some "cogcities";
     org_description := Some "ééééééééééééééééééééééééééééééééééééééééééééé";
     org_membersWithRole := None; org_repositories := None |}.

Definition org_long : organization :=
  {| org_login := Some "cogcities";
     org_description :=
       Some "0123456789012345678901234567890123456789012345678901234567";
     org_membersWithRole := None; org_repositories := None |}.

(** A summary that counts five enterprises beside the six counts, and a
    store that holds only it. *)
Definition summary_with_enterprises : summary :=
  {| sum_timestamp := Some "2024-06-01T00:00:00Z"; sum_user := Some "drzo";
     sum_counts := Some (<["enterprises" := 5%Z]>
                        (<["gists" := 1%Z]>
                        (<["starred_repos" := 2%Z]>
                        (<["following" := 1%Z]>
                        (<["followers" := 1%Z]>
                        (<["repositories" := 3%Z]>
                        (<["organizations" := 3%Z]> ∅))))))) |}.

Definition store_with_enterprises : store :=
  Files.write_summary summary_with_enterprises empty_store.

(** The API of [api], except that every request for repositories is
    answered by an HTTP error. *)
Definition api_without_repositories : github nat :=
  {| q_viewer := q_viewer api;
     q_organizations := q_organizations api;
     q_repositories := fun w _ => (None, S w);
     q_followers := q_followers api;
     q_following := q_following api;
     q_starredRepositories := q_starredRepositories api;
     q_gists := q_gists api;
     utcnow_isoformat := utcnow_isoformat api |}.

(** [f"{count / total * 100:.1f}"] for [total > 0] by exact arithmetic:
    the nearest tenth, a tie going to the even one. *)
Definition percent_1f (count total : Z) : string :=
  let q := (count * 1000 / total)%Z in
  let r := (count * 1000 mod total)%Z in
  let tenths := if (total <? 2 * r)%Z then (q + 1)%Z
                else if (2 * r =? total)%Z then (q + q mod 2)%Z
                else q in
  Py.str_int (tenths / 10) +:+ "." +:+ Py.str_int (tenths mod 10).
End Demo.

(** ** Further notions, for the properties beyond the specification *)

Module Props.
Import Collector.

(** [if not data.get("pageInfo", {}).get("hasNextPage")] is not taken. *)
Definition has_next {A} (p : connection A) : bool :=
  Py.truthy (hasNextPage (Py.get (pageInfo p) {| hasNextPage := None; endCursor := None |})).

(** The pages the API serves to a client that starts at [cursor] and asks
    again with each end cursor, for at most [n] requests: the walk stops
    at a refused request, at a page without a next page and at a page
    without an end cursor. *)
Fixpoint follow {W A} (query : W → option string → option (connection A) * W)
    (n : nat) (w : W) (cursor : option string) : list (connection A) :=
  match n with
  | O => []
  | S n' =>
    match query w cursor with
    | (None, _) => []
    | (Some data, w') =>
      data :: (if has_next data
               then match pageInfo data ≫= endCursor with
                    | Some cursor' => follow query n' w' cursor'
                    | None => []
                    end
               else [])
    end
  end.

(** The pages [ps] are a complete listing served by [query] from [w]:
    they are the pages met by following the end cursors from the unset
    cursor, the last one announces no next page, the others do. *)
Definition complete_listing {W A} (query : W → option string → option (connection A) * W)
    (fuel : nat) (w : W) (ps : list (connection A)) : Prop :=
  ps = follow query fuel w None ∧
  ∃ before last, ps = before ++ [last] ∧ has_next last = false ∧
    Forall (λ p, has_next p = true ∧ is_Some (pageInfo p ≫= endCursor)) before.

(** Each page of [ps] holds at least one and at most [n] items. *)
Definition page_sizes_within {A} (n : nat) (ps : list (connection A)) : Prop :=
  Forall (λ p, (1 ≤ length (page_items p) ≤ n)%nat) ps.

(** What a fetch limited to [limit] items does on pages of 1 to [n]
    items: at most [limit] pages received, fewer than [limit + n] items
    accumulated, and no running out of a fuel of at least [limit]. *)
Definition bounded_fetch {W A} (limit : Z) (n fuel : nat) (r : fetched W A) : Prop :=
  (Z.of_nat (length (pages r)) ≤ limit)%Z ∧
  (Z.of_nat (length (accumulation (pages r))) < limit + Z.of_nat n)%Z ∧
  ((limit ≤ Z.of_nat fuel)%Z → result r ≠ OutOfFuel).

(** What a statement of the Collector's [main] guarantees about the
    files: [ok] relates the files before and after it when it returns,
    [ko] when it does not. *)
Definition ensures {W A} (c : CollectorMain.M W A) (ok ko : store → store → Prop) : Prop :=
  ∀ s o s', c s = (o, s') →
    match o with
    | Returned _ => ok (CollectorMain.files s) (CollectorMain.files s')
    | _ => ko (CollectorMain.files s) (CollectorMain.files s')
    end.

(** Neither [enterprises.json] nor [README.md] differ. *)
Definition same_foreign_files (st1 st2 : store) : Prop :=
  enterprises_json st2 = enterprises_json st1 ∧ readme_md st2 = readme_md st1.

(** The lines [main] prints before it looks at the token. *)
Definition banner {W} (api : github W) (s : CollectorMain.state W) : list string :=
  [CollectorMain.rule; "DrZo Ecosystem Query";
   "Timestamp: " +:+ utcnow_isoformat api (CollectorMain.api_state s) +:+ "Z";
   CollectorMain.rule].

(** The counts of a summary are the sizes of the snapshot lists of the
    store, and its user is the login of the stored user info. *)
Definition summary_matches (st : store) (s : summary) : Prop :=
  ∃ u orgs repos followers following starred gists counts,
    user_info_json st = Some u ∧ organizations_json st = Some orgs ∧
    repositories_json st = Some repos ∧ followers_json st = Some followers ∧
    following_json st = Some following ∧ starred_repos_json st = Some starred ∧
    gists_json st = Some gists ∧
    sum_user s = ui_login u ∧ sum_counts s = Some counts ∧
    counts !! "organizations" = Some (CollectorMain.len orgs) ∧
    counts !! "repositories" = Some (CollectorMain.len repos) ∧
    counts !! "followers" = Some (CollectorMain.len followers) ∧
    counts !! "following" = Some (CollectorMain.len following) ∧
    counts !! "starred_repos" = Some (CollectorMain.len starred) ∧
    counts !! "gists" = Some (CollectorMain.len gists) ∧
    (CollectorMain.len repos ≤ 1000)%Z ∧ (CollectorMain.len starred ≤ 500)%Z.

(** [summary.json] does not differ. *)
Definition same_summary (st1 st2 : store) : Prop := summary_json st2 = summary_json st1.

(** [user_info.json] does not differ. *)
Definition same_user_info (st1 st2 : store) : Prop :=
  user_info_json st2 = user_info_json st1.

(** [organizations.json] does not differ. *)
Definition same_organizations (st1 st2 : store) : Prop :=
  organizations_json st2 = organizations_json st1.

(** [GITHUB_TOKEN] is unset or empty: [not TOKEN]. *)
Definition token_missing (TOKEN : option string) : Prop :=
  TOKEN = None ∨ TOKEN = Some "".

(** A call that did not return. *)
Definition failed {A} (o : outcome A) : Prop :=
  match o with Returned _ => False | _ => True end.

(** The files of [data/] the Reporter reads but never writes, and those
    the Collector writes. *)
Definition same_data (st1 st2 : store) : Prop :=
  user_info_json st1 = user_info_json st2 ∧
  organizations_json st1 = organizations_json st2 ∧
  repositories_json st1 = repositories_json st2 ∧
  followers_json st1 = followers_json st2 ∧
  following_json st1 = following_json st2 ∧
  starred_repos_json st1 = starred_repos_json st2 ∧
  gists_json st1 = gists_json st2 ∧
  summary_json st1 = summary_json st2 ∧
  enterprises_json st1 = enterprises_json st2.

(** The six keys of [summary['counts']] the report reads with [d[key]]. *)
Definition count_keys : list string :=
  ["organizations"; "repositories"; "followers"; "following"; "starred_repos"; "gists"].


(** [key] is the first of the six counts that [counts] lacks. *)
Definition first_missing (counts : gmap string Z) (key : string) : Prop :=
  ∃ before after, count_keys = before ++ key :: after ∧
                  Forall (λ k, is_Some (counts !! k)) before ∧ counts !! key = None.

(** The six rows of the Overview table below the row of the enterprises. *)
Definition count_rows (organizations repositories followers following starred gists : Z)
    : string :=
  Py.text ["| Organizations | " +:+ Py.str_int organizations +:+ " |";
           "| Repositories | " +:+ Py.str_int repositories +:+ " |";
           "| Followers | " +:+ Py.str_int followers +:+ " |";
           "| Following | " +:+ Py.str_int following +:+ " |";
           "| Starred Repos | " +:+ Py.str_int starred +:+ " |";
           "| Gists | " +:+ Py.str_int gists +:+ " |"].


(** The number of repositories whose primary language is [name]. *)
Definition with_language (name : string) (repos : list repository) : Z :=
  Z.of_nat (length (filter (λ r, Reporter.language_truthy (repo_primaryLanguage r) = true
                                 ∧ Reporter.language_name (repo_primaryLanguage r) = name)
                           repos)).

(** The number of repositories that count as archived. *)
Definition archived_count (repos : list repository) : Z :=
  Z.of_nat (length (filter (λ r, Py.truthy (repo_isArchived r) = true) repos)).

(** [d.get(k, 0)] on a counter kept in insertion order. *)
Fixpoint counter_get (k : string) (d : list (string * Z)) : Z :=
  match d with
  | [] => 0
  | (k', v) :: d' => if String.eqb k k' then v else counter_get k d'
  end.

(** The description a row shows before it is cut:
    [org.get('description') or 'No description']. *)
Definition description_or_default (org : organization) : string :=
  match org_description org with
  | None | Some "" => "No description"
  | Some d => d
  end.

(** [s2] starts with [s1]. *)
Definition str_prefix (s1 s2 : string) : Prop := ∃ rest, s2 = s1 +:+ rest.
End Props.

(** ** Facts about the built-ins *)

Section StringFacts.

Lemma startswith_app (p1 p2 s : string) :
  Py.startswith s (p1 +:+ p2) = true →
  ∃ s', s = p1 +:+ s' ∧ Py.startswith s' p2 = true.
Proof.
  revert s. induction p1 as [|a p1 IH]; intros s H.
  - exists s. split; [reflexivity | exact H].
  - destruct s as [|b s]; simpl in H; [discriminate|].
    destruct (Ascii.eqb a b) eqn:Hab; [|discriminate].
    apply Ascii.eqb_eq in Hab. subst b.
    destruct (IH s H) as (s' & -> & Hs').
    exists s'. split; [reflexivity | exact Hs'].
Qed.

Lemma contains_here (x s : string) :
  Py.startswith s x = true → Py.contains x s = true.
Proof. intros H. destruct s; cbn [Py.contains]; rewrite H; reflexivity. Qed.

Lemma contains_skip (x p s : string) :
  Py.contains x s = true → Py.contains x (p +:+ s) = true.
Proof.
  intros H. induction p as [|c p IH]; [exact H|].
  change (Py.startswith (String c (p +:+ s)) x || Py.contains x (p +:+ s) = true).
  rewrite IH. apply orb_true_r.
Qed.

(** A string that contains [x1 + x2] contains [x2]. *)
Lemma contains_suffix_of_needle (x1 x2 s : string) :
  Py.contains (x1 +:+ x2) s = true → Py.contains x2 s = true.
Proof.
  induction s as [|c s IH]; intros H.
  - cbn [Py.contains] in H. rewrite orb_false_r in H.
    apply startswith_app in H as (s' & Hs & H').
    rewrite Hs. apply contains_skip, contains_here, H'.
  - change (Py.startswith (String c s) (x1 +:+ x2) || Py.contains (x1 +:+ x2) s = true) in H.
    apply orb_true_iff in H as [H | H].
    + apply startswith_app in H as (s' & Hs & H').
      rewrite Hs. apply contains_skip, contains_here, H'.
    + change (Py.startswith (String c s) x2 || Py.contains x2 s = true).
      rewrite (IH H). apply orb_true_r.
Qed.

Lemma org_echo_has_echo (s : string) :
  Py.contains "org-echo" s = true → Py.contains "echo" s = true.
Proof. apply (contains_suffix_of_needle "org-" "echo"). Qed.

End StringFacts.

Section SortedFacts.
Context {A : Type} (key : A → Z).

#[local] Abbreviation desc := (Spec.desc key).

Lemma insert_desc_perm (x : A) (l : list A) : Py.insert_desc key x l ≡ₚ x :: l.
Proof.
  induction l as [|y l IH]; simpl; [reflexivity|].
  destruct (key x <? key y)%Z; [|reflexivity].
  rewrite IH. apply Permutation_swap.
Qed.

Lemma sorted_desc_perm (l : list A) : Py.sorted_desc key l ≡ₚ l.
Proof.
  induction l as [|x l IH]; simpl; [reflexivity|].
  rewrite insert_desc_perm. by rewrite IH.
Qed.

Lemma insert_desc_sorted (x : A) (l : list A) :
  StronglySorted desc l → StronglySorted desc (Py.insert_desc key x l).
Proof.
  induction l as [|y l IH]; intros Hs; simpl.
  - repeat constructor.
  - apply StronglySorted_inv in Hs as [Hl Hy].
    destruct (key x <? key y)%Z eqn:Hxy.
    + apply Z.ltb_lt in Hxy. constructor; [by apply IH|].
      rewrite insert_desc_perm. constructor; [unfold Spec.desc; lia | exact Hy].
    + apply Z.ltb_ge in Hxy. constructor; [by constructor|].
      constructor; [exact Hxy|].
      eapply Forall_impl; [exact Hy|]. unfold Spec.desc. intros; simpl in *; lia.
Qed.

Lemma sorted_desc_sorted (l : list A) : StronglySorted desc (Py.sorted_desc key l).
Proof.
  induction l as [|x l IH]; simpl; [constructor|]. by apply insert_desc_sorted.
Qed.

(** Stability: among the elements of one key, the order is the input's. *)
Lemma insert_desc_stable (n : Z) (x : A) (l : list A) :
  filter (λ a, key a = n) (Py.insert_desc key x l) = filter (λ a, key a = n) (x :: l).
Proof.
  induction l as [|y l IH]; simpl; [reflexivity|].
  destruct (key x <? key y)%Z eqn:Hxy; [|reflexivity].
  apply Z.ltb_lt in Hxy.
  rewrite (filter_cons _ y), IH, !filter_cons.
  repeat case_decide; try reflexivity; lia.
Qed.

Lemma sorted_desc_stable (n : Z) (l : list A) :
  filter (λ a, key a = n) (Py.sorted_desc key l) = filter (λ a, key a = n) l.
Proof.
  induction l as [|x l IH]; simpl; [reflexivity|].
  rewrite insert_desc_stable, !filter_cons, IH. reflexivity.
Qed.

End SortedFacts.

Section DictFacts.

Lemma sum_values_cons (k : string) (v : Z) (d : list (string * Z)) :
  Py.sum_values ((k, v) :: d) = (v + Py.sum_values d)%Z.
Proof. reflexivity. Qed.

Lemma sum_values_incr (k : string) (d : list (string * Z)) :
  Py.sum_values (Py.incr k d) = (Py.sum_values d + 1)%Z.
Proof.
  induction d as [|[k' v] d IH]; [reflexivity|].
  cbn [Py.incr]. destruct (String.eqb k k'); rewrite !sum_values_cons; [|rewrite IH]; lia.
Qed.

End DictFacts.

(** ** Organization categories *)

Section Categories.
Import Reporter.

Lemma category_names_nodup : NoDup category_names.
Proof. unfold category_names. compute_done. Qed.

Lemma category_of_login_first_match (login : string) :
  category_of_login login = Spec.first_match Spec.rules "Other" login.
Proof. reflexivity. Qed.

Lemma category_of_login_named (login : string) :
  category_of_login login ∈ category_names.
Proof.
  unfold category_of_login, category_names.
  repeat match goal with
         | |- context [if ?b then _ else _] => destruct b
         end; set_solver.
Qed.

Lemma category_of_login_not_echo (login : string) :
  category_of_login login ≠ "Echo Mirrors".
Proof.
  unfold category_of_login.
  destruct (Py.any_in ["cog"; "oz"; "echo"] login) eqn:Hcore; [discriminate|].
  destruct (Py.any_in ["zone"; "rez"; "rzone"] login); [discriminate|].
  destruct (Py.contains "regima" login); [discriminate|].
  destruct (Py.startswith login "o9" || Py.startswith login "o6" || Py.contains "e9" login);
    [discriminate|].
  destruct (Py.contains "org-echo" login) eqn:Hecho.
  - apply org_echo_has_echo in Hecho.
    unfold Py.any_in in Hcore. cbn [existsb] in Hcore.
    rewrite Hecho, !orb_true_r in Hcore. discriminate.
  - destruct (Py.any_in ["unicorn"; "cosmic"; "kaw"; "hyper"; "marduk"; "gnn"] login);
      discriminate.
Qed.

#[local] Abbreviation filled := Spec.filled.

Lemma append_to_filled (org : organization) (orgs : list organization) :
  append_to (category_of org) org (filled orgs) = filled (orgs ++ [org]).
Proof.
  unfold append_to, Spec.filled. rewrite map_map. apply map_ext. intros k. simpl.
  unfold Spec.members. rewrite filter_app, filter_cons, filter_nil.
  destruct (String.eqb_spec k (category_of org)) as [-> | Hne].
  - rewrite decide_True by reflexivity. reflexivity.
  - rewrite decide_False by congruence. by rewrite app_nil_r.
Qed.

Lemma fold_append_filled (orgs seen : list organization) :
  fold_left (fun categories org => append_to (category_of org) org categories)
            orgs (filled seen)
  = filled (seen ++ orgs).
Proof.
  revert seen. induction orgs as [|org orgs IH]; intros seen; cbn [fold_left].
  - by rewrite app_nil_r.
  - rewrite append_to_filled, IH, <- app_assoc. reflexivity.
Qed.

(** The returned dictionary: for each category name in order, its
    members in input order, the empty ones left out. *)
Lemma categorize_organizations_eq (orgs : list organization) :
  categorize_organizations orgs
  = List.filter (fun kv => negb (is_empty kv.2)) (filled orgs).
Proof.
  unfold categorize_organizations.
  change (map (fun k => (k, [])) category_names) with (filled []).
  by rewrite fold_append_filled.
Qed.

Lemma elem_of_categorize (orgs : list organization) (k : string) (l : list organization) :
  (k, l) ∈ categorize_organizations orgs
  ↔ k ∈ category_names ∧ l = Spec.members k orgs ∧ l ≠ [].
Proof.
  rewrite categorize_organizations_eq, list_elem_of_In, filter_In, <- list_elem_of_In.
  unfold Spec.filled. rewrite list_elem_of_fmap. simpl. split.
  - intros [(k' & [= -> ->] & Hk) Hne]. split; [exact Hk|]. split; [reflexivity|].
    intros Hnil. rewrite Hnil in Hne. discriminate.
  - intros (Hk & -> & Hne). split; [by exists k|].
    destruct (Spec.members k orgs); [done | reflexivity].
Qed.

Lemma members_echo_empty (orgs : list organization) :
  Spec.members "Echo Mirrors" orgs = [].
Proof.
  unfold Spec.members. induction orgs as [|org orgs IH]; [reflexivity|].
  rewrite filter_cons, decide_False; [exact IH|].
  apply category_of_login_not_echo.
Qed.

(** Dropping the empty lists loses no organization. *)
Lemma concat_nonempty {A B} (l : list (A * list B)) :
  concat (map snd (List.filter (fun kv => negb (is_empty kv.2)) l)) = concat (map snd l).
Proof.
  induction l as [|[k [|x v]] l IH]; simpl; [reflexivity | exact IH |].
  by rewrite IH.
Qed.

Lemma members_cons_other (names : list string) (org : organization)
    (orgs : list organization) :
  category_of org ∉ names →
  concat (map (fun k => Spec.members k (org :: orgs)) names)
  = concat (map (fun k => Spec.members k orgs) names).
Proof.
  induction names as [|k names IH]; intros Hnot; simpl; [reflexivity|].
  apply not_elem_of_cons in Hnot as [Hne Hnot].
  rewrite IH by exact Hnot. unfold Spec.members at 1.
  rewrite filter_cons, decide_False by exact Hne. reflexivity.
Qed.

Lemma members_cons_perm (names : list string) (org : organization)
    (orgs : list organization) :
  NoDup names → category_of org ∈ names →
  concat (map (fun k => Spec.members k (org :: orgs)) names)
  ≡ₚ org :: concat (map (fun k => Spec.members k orgs) names).
Proof.
  induction names as [|k names IH]; intros Hnd Hin; [by apply elem_of_nil in Hin|].
  apply NoDup_cons in Hnd as [Hk Hnd]. simpl.
  destruct (decide (category_of org = k)) as [Heq | Hne].
  - rewrite members_cons_other by (by rewrite Heq).
    unfold Spec.members at 1. rewrite filter_cons, decide_True by exact Heq.
    reflexivity.
  - apply elem_of_cons in Hin as [Hin | Hin]; [done|].
    unfold Spec.members at 1. rewrite filter_cons, decide_False by exact Hne.
    rewrite (IH Hnd Hin). by rewrite Permutation_middle.
Qed.

Lemma members_partition (orgs : list organization) :
  concat (map (fun k => Spec.members k orgs) category_names) ≡ₚ orgs.
Proof.
  induction orgs as [|org orgs IH].
  - reflexivity.
  - rewrite members_cons_perm, IH; [reflexivity | apply category_names_nodup |].
    apply category_of_login_named.
Qed.

End Categories.

(** ** Repository statistics *)

Section Statistics.
Import Reporter.

Lemma no_language_cons (repo : repository) (repos : list repository) :
  Spec.no_language (repo :: repos)
  = ((if language_truthy (repo_primaryLanguage repo) then 0 else 1)
     + Spec.no_language repos)%Z.
Proof.
  unfold Spec.no_language. rewrite filter_cons.
  destruct (language_truthy (repo_primaryLanguage repo)).
  - rewrite decide_False by discriminate. lia.
  - rewrite decide_True by reflexivity. simpl length. lia.
Qed.

(** What the loop of [analyze_repositories] adds to the tallies it
    starts from. *)
Lemma analyze_fold (repos : list repository) (s : stats) :
  let s' := fold_left analyze_step repos s in
  (public s' + private s' = public s + private s + Z.of_nat (length repos))%Z ∧
  (forks s' + original s' = forks s + original s + Z.of_nat (length repos))%Z ∧
  (Py.sum_values (languages s')
   = Py.sum_values (languages s) + Z.of_nat (length repos) - Spec.no_language repos)%Z.
Proof.
  revert s. induction repos as [|repo repos IH]; intros s.
  - cbn [fold_left length]. unfold Spec.no_language. rewrite filter_nil. simpl. lia.
  - cbn [fold_left]. specialize (IH (analyze_step s repo)).
    cbv zeta in IH |- *. destruct IH as (Hp & Hf & Hl).
    rewrite Hp, Hf, Hl, no_language_cons. clear Hp Hf Hl.
    unfold analyze_step. cbn [public private forks original languages length].
    destruct (Py.truthy (repo_isPrivate repo)), (Py.truthy (repo_isFork repo)),
      (language_truthy (repo_primaryLanguage repo));
      rewrite ?sum_values_incr; lia.
Qed.

Lemma no_language_bounds (repos : list repository) :
  (0 ≤ Spec.no_language repos ≤ Z.of_nat (length repos))%Z.
Proof.
  unfold Spec.no_language.
  pose proof (length_filter (λ r, language_truthy (repo_primaryLanguage r) = false) repos).
  lia.
Qed.

End Statistics.

(** ** The enterprise of an organization *)

Section EnterpriseMapping.
Import Reporter.

#[local] Abbreviation add_nodes p :=
  (fold_left (fun (mapping : gmap (option string) parent) (org : organization) =>
                <[org_login org := p]> mapping)).

#[local] Abbreviation add_enterprise :=
  (fun (mapping : gmap (option string) parent) (ent : enterprise) =>
     add_nodes (Spec.parent_of ent)
               (Py.get (oc_nodes (organizations_of ent)) []) mapping).

Lemma map_orgs_to_enterprises_fold (enterprises : list enterprise) :
  map_orgs_to_enterprises enterprises = fold_left add_enterprise enterprises ∅.
Proof. reflexivity. Qed.

Lemma add_nodes_lookup (p : parent) (nodes : list organization)
    (m : gmap (option string) parent) (login : option string) :
  add_nodes p nodes m !! login
  = if decide (login ∈ map org_login nodes) then Some p else m !! login.
Proof.
  revert m. induction nodes as [|org nodes IH]; intros m; cbn [fold_left map].
  - rewrite decide_False by apply not_elem_of_nil. reflexivity.
  - rewrite IH, lookup_insert.
    destruct (decide (login ∈ map org_login nodes)) as [Hin | Hnin].
    + rewrite decide_True by (by right). reflexivity.
    + destruct (decide (org_login org = login)) as [<- | Hne].
      * rewrite decide_True by (by left). reflexivity.
      * rewrite decide_False; [reflexivity|].
        intros [?|?]%elem_of_cons; congruence.
Qed.

Lemma add_enterprises_other (ents : list enterprise)
    (m : gmap (option string) parent) (login : option string) :
  (∀ ent, ent ∈ ents → login ∉ Spec.nested_logins ent) →
  fold_left add_enterprise ents m !! login = m !! login.
Proof.
  revert m. induction ents as [|ent ents IH]; intros m Hnot; cbn [fold_left];
    [reflexivity|].
  rewrite IH by (intros e He; apply Hnot; by right).
  rewrite add_nodes_lookup, decide_False; [reflexivity|].
  apply (Hnot ent). by left.
Qed.

Lemma add_enterprises_dom (ents : list enterprise)
    (m : gmap (option string) parent) (login : option string) :
  is_Some (fold_left add_enterprise ents m !! login)
  ↔ is_Some (m !! login) ∨ ∃ ent, ent ∈ ents ∧ login ∈ Spec.nested_logins ent.
Proof.
  revert m. induction ents as [|ent ents IH]; intros m; cbn [fold_left].
  - split; [by left|]. intros [H | (e & He & _)]; [exact H|]. by apply elem_of_nil in He.
  - rewrite IH, add_nodes_lookup. fold (Spec.nested_logins ent).
    case_decide as Hin; split.
    + intros _. right. exists ent. split; [by left | exact Hin].
    + intros _. by left.
    + intros [H | (e & He & Hl)]; [by left|]. right. exists e. split; [by right | exact Hl].
    + intros [H | (e & He & Hl)]; [by left|].
      apply elem_of_cons in He as [-> | He]; [done|]. right. by exists e.
Qed.

End EnterpriseMapping.

(** ** Pagination *)

Section PaginationFacts.
Import Collector.
Context {W A : Type}.
Variable query : W → option string → option (connection A) * W.

Lemma accumulation_app (ps qs : list (connection A)) :
  accumulation (ps ++ qs) = accumulation ps ++ accumulation qs.
Proof. unfold accumulation. by rewrite map_app, concat_app. Qed.

Lemma accumulation_cons (p : connection A) (ps : list (connection A)) :
  accumulation (p :: ps) = page_items p ++ accumulation ps.
Proof. reflexivity. Qed.

Lemma page_sizes_length (ps : list (connection A)) :
  page_sizes ps = length (accumulation ps).
Proof.
  induction ps as [|p ps IH]; [reflexivity|].
  rewrite accumulation_cons, length_app, <- IH. reflexivity.
Qed.

(** One turn of the loop. *)
Lemma fetch_loop_unfold (guard : list A → bool) (fuel : nat) (w : W) (acc : list A)
    (cursor : option string) (seen : list (connection A)) :
  fetch_loop query guard fuel w acc cursor seen
  = if negb (guard acc) then {| result := Returned acc; pages := seen; world := w |}
    else match fuel with
         | O => {| result := OutOfFuel; pages := seen; world := w |}
         | S fuel' =>
           match query w cursor with
           | (None, w') => {| result := Raised HTTPError; pages := seen; world := w' |}
           | (Some data, w') =>
             if negb (Py.truthy (hasNextPage (Py.get (pageInfo data)
                                    {| hasNextPage := None; endCursor := None |})))
             then {| result := Returned (acc ++ page_items data);
                     pages := seen ++ [data]; world := w' |}
             else match pageInfo data ≫= endCursor with
                  | None => {| result := Raised (KeyError "endCursor");
                               pages := seen ++ [data]; world := w' |}
                  | Some cursor' =>
                    fetch_loop query guard fuel' w' (acc ++ page_items data) cursor'
                               (seen ++ [data])
                  end
           end
         end.
Proof. destruct fuel; reflexivity. Qed.

(** The pages a loop receives, what it returns, and when it asks. *)
Lemma fetch_loop_pages (guard : list A → bool) (fuel : nat) (w : W) (acc : list A)
    (cursor : option string) (seen : list (connection A)) :
  ∃ new, pages (fetch_loop query guard fuel w acc cursor seen) = seen ++ new ∧
    (∀ res, result (fetch_loop query guard fuel w acc cursor seen) = Returned res →
            res = acc ++ accumulation new) ∧
    (∀ before p after, new = before ++ p :: after →
            guard (acc ++ accumulation before) = true).
Proof.
  revert w acc cursor seen.
  induction fuel as [|fuel IH]; intros w acc cursor seen; rewrite fetch_loop_unfold.
  - destruct (guard acc) eqn:Hg; simpl; exists []; rewrite !app_nil_r;
      (split; [reflexivity|]); (split; [intros res [= <-] || discriminate; reflexivity|]);
      intros [|??] ???; discriminate.
  - destruct (guard acc) eqn:Hg; simpl.
    2: { exists []. rewrite !app_nil_r. split; [reflexivity|].
         split; [by intros res [= <-]|]. intros [|??] ???; discriminate. }
    destruct (query w cursor) as [[data|] w'].
    2: { exists []. rewrite !app_nil_r. split; [reflexivity|].
         split; [discriminate|]. intros [|??] ???; discriminate. }
    assert (Hone : ∀ before p after, [data] = before ++ p :: after →
                     guard (acc ++ accumulation before) = true).
    { intros [|q before] p after Heq.
      - by rewrite app_nil_r.
      - destruct before; discriminate. }
    destruct (negb (Py.truthy _)).
    { exists [data]. split; [reflexivity|]. split; [|exact Hone].
      intros res [= <-]. by rewrite accumulation_cons, app_nil_r. }
    destruct (pageInfo data ≫= endCursor) as [cursor'|].
    2: { exists [data]. split; [reflexivity|]. split; [discriminate | exact Hone]. }
    destruct (IH w' (acc ++ page_items data) cursor' (seen ++ [data]))
      as (new & Hp & Hr & Hg').
    exists (data :: new). split; [by rewrite Hp, <- app_assoc|].
    split.
    + intros res Hres. rewrite (Hr res Hres), accumulation_cons, app_assoc. reflexivity.
    + intros [|q before] p after Heq.
      * by rewrite app_nil_r.
      * injection Heq as <- Heq.
        rewrite accumulation_cons, app_assoc. by eapply Hg'.
Qed.

(** A loop with a condition returns a prefix of what the loop without
    one returns, and the whole of it unless the condition stopped it. *)
Lemma fetch_loop_prefix (guard : list A → bool) (fuel fuel' : nat) (w : W)
    (acc : list A) (cursor : option string) (seen seen' : list (connection A))
    (res all : list A) :
  result (fetch_loop query guard fuel w acc cursor seen) = Returned res →
  result (fetch_loop query (fun _ => true) fuel' w acc cursor seen') = Returned all →
  ∃ rest, all = res ++ rest ∧ (guard res = false ∨ rest = []).
Proof.
  revert fuel' w acc cursor seen seen'.
  induction fuel as [|fuel IH]; intros fuel' w acc cursor seen seen';
    rewrite (fetch_loop_unfold guard); intros Hres Hall.
  - destruct (guard acc) eqn:Hg; simpl in Hres; [discriminate|].
    injection Hres as <-.
    destruct (fetch_loop_pages (fun _ => true) fuel' w acc cursor seen')
      as (new & _ & Hr & _).
    exists (accumulation new). split; [by apply Hr | by left].
  - destruct (guard acc) eqn:Hg; simpl in Hres.
    2: { injection Hres as <-.
         destruct (fetch_loop_pages (fun _ => true) fuel' w acc cursor seen')
           as (new & _ & Hr & _).
         exists (accumulation new). split; [by apply Hr | by left]. }
    rewrite fetch_loop_unfold in Hall. simpl in Hall.
    destruct fuel' as [|fuel']; [discriminate|].
    destruct (query w cursor) as [[data|] w']; [|discriminate].
    destruct (negb (Py.truthy _)).
    { injection Hres as <-. injection Hall as <-.
      exists []. split; [by rewrite app_nil_r | by right]. }
    destruct (pageInfo data ≫= endCursor) as [cursor'|]; [|discriminate].
    by eapply IH.
Qed.

Lemma fetch_all_concatenates (fuel : nat) (w : W) (res : list A) :
  result (fetch_all query fuel w) = Returned res →
  Spec.concatenation_of (pages (fetch_all query fuel w)) res.
Proof.
  unfold fetch_all. intros Hres.
  destruct (fetch_loop_pages (fun _ => true) fuel w [] None []) as (new & Hp & Hr & _).
  rewrite Hp. simpl. rewrite (Hr res Hres). simpl.
  split; [reflexivity | by rewrite page_sizes_length].
Qed.

(** What [fetch_limit] returns, in terms of the loop it runs. *)
Lemma fetch_limit_inv (limit : Z) (fuel : nat) (w : W) (res : list A) :
  result (fetch_limit query limit fuel w) = Returned res →
  ∃ acc, result (fetch_loop query (fun acc => (Z.of_nat (length acc) <? limit)%Z)
                            fuel w [] None []) = Returned acc ∧
         pages (fetch_limit query limit fuel w)
         = pages (fetch_loop query (fun acc => (Z.of_nat (length acc) <? limit)%Z)
                             fuel w [] None []) ∧
         res = Py.slice_to acc limit.
Proof.
  unfold fetch_limit.
  destruct (result (fetch_loop query _ fuel w [] None [])) as [acc| | |] eqn:Hr;
    simpl; rewrite ?Hr; try discriminate.
  intros [= <-]. by exists acc.
Qed.

Lemma fetch_limit_slice (limit : Z) (fuel : nat) (w : W) (res : list A) :
  result (fetch_limit query limit fuel w) = Returned res →
  res = Py.slice_to (accumulation (pages (fetch_limit query limit fuel w))) limit.
Proof.
  intros Hres. apply fetch_limit_inv in Hres as (acc & Hacc & -> & ->).
  destruct (fetch_loop_pages (fun acc => (Z.of_nat (length acc) <? limit)%Z)
              fuel w [] None []) as (new & Hp & Hr & _).
  rewrite Hp. simpl. by rewrite (Hr acc Hacc).
Qed.

Lemma fetch_limit_truncates (limit : Z) (fuel : nat) (w : W) (res : list A) :
  (0 ≤ limit)%Z →
  result (fetch_limit query limit fuel w) = Returned res →
  Spec.truncation_of query w limit (pages (fetch_limit query limit fuel w)) res.
Proof.
  intros Hlimit Hres.
  pose proof (fetch_limit_slice _ _ _ _ Hres) as Hslice.
  apply fetch_limit_inv in Hres as (acc & Hacc & Hpages & ->).
  rewrite Hpages in Hslice |- *.
  destruct (fetch_loop_pages (fun acc => (Z.of_nat (length acc) <? limit)%Z)
              fuel w [] None []) as (new & Hp & Hr & Hg).
  rewrite Hp in Hslice |- *. simpl in Hslice |- *.
  unfold Py.slice_to in *. rewrite (proj2 (Z.leb_le 0 limit) Hlimit) in *.
  repeat split.
  - rewrite length_take. lia.
  - exact Hslice.
  - intros before p after Heq. specialize (Hg before p after Heq).
    simpl in Hg. by apply Z.ltb_lt in Hg.
  - destruct (fetch_loop_prefix _ _ _ _ _ _ _ _ _ _ Hacc H)
      as (rest & -> & [Hstop | ->]).
    + apply Z.ltb_ge in Hstop. rewrite take_app_le by lia. reflexivity.
    + by rewrite app_nil_r.
  - destruct (fetch_loop_prefix _ _ _ _ _ _ _ _ _ _ Hacc H) as (rest & -> & _).
    etransitivity; [apply prefix_take | by apply prefix_app_r].
Qed.

(** A limit below zero: nothing is requested, nothing returned. *)
Lemma fetch_limit_negative (limit : Z) (fuel : nat) (w : W) :
  (limit ≤ 0)%Z →
  fetch_limit query limit fuel w = {| result := Returned []; pages := []; world := w |}.
Proof.
  intros Hlimit. unfold fetch_limit. rewrite fetch_loop_unfold.
  change (Z.of_nat (length (@nil A))) with 0%Z.
  rewrite (proj2 (Z.ltb_ge 0 limit) Hlimit). simpl.
  unfold Py.slice_to. destruct (0 <=? limit)%Z; by rewrite take_nil.
Qed.

End PaginationFacts.

(** ** The Collector's run *)

Section CollectorRun.
Import Collector CollectorMain.
Context {W : Type} (api : github W).

Lemma bind_returned {A B} (c : M W A) (k : A → M W B) (s s1 : state W) (b : B) :
  (c ≫= k) s = (Returned b, s1) →
  ∃ a s', c s = (Returned a, s') ∧ k a s' = (Returned b, s1).
Proof.
  unfold mbind, M_bind, bind. destruct (c s) as [[a| | |] s']; try discriminate.
  intros H. by exists a, s'.
Qed.

(** One statement of [main] that returned: its effect on the state. *)
Ltac run_step H :=
  let Hc := fresh "Hc" in
  apply bind_returned in H as (? & ? & Hc & H);
  unfold print, save_data, now, call, call_fetch in Hc;
  cbn [api_state CollectorMain.files stdout] in Hc;
  apply pair_equal_spec in Hc as [Hc ?]; subst;
  lazymatch type of Hc with
  | Returned _ = Returned _ => injection Hc as Hc; subst
  | _ => idtac
  end.

(** A run that completes leaves the seven snapshots it fetched and the
    summary made from them; the other files are as they were. *)
Lemma main_returned (TOKEN : option string) (fuel : nat) (s0 s1 : state W) :
  main api TOKEN fuel s0 = (Returned tt, s1) →
  ∃ t u orgs repos followers following starred gists,
    CollectorMain.files s1
    = Files.write_summary (make_summary t u orgs repos followers following starred gists)
        (Files.write_gists gists
        (Files.write_starred_repos starred
        (Files.write_following following
        (Files.write_followers followers
        (Files.write_repositories repos
        (Files.write_organizations orgs
        (Files.write_user_info u (CollectorMain.files s0)))))))).
Proof.
  unfold main. intros H.
  do 5 run_step H.
  destruct TOKEN as [[|c token]|].
  1, 3: run_step H; discriminate.
  do 32 run_step H.
  unfold print in H. apply pair_equal_spec in H as [_ <-]. cbn [CollectorMain.files].
  by repeat eexists.
Qed.

End CollectorRun.

(** ** The Reporter's run *)

Section ReporterRun.
Import Reporter.
Variable percent_1f : Z → Z → string.

Lemma Returned_inj {A} (a b : A) : Returned a = Returned b → a = b.
Proof. by intros [= ->]. Qed.

Lemma append_cons (x : ascii) (a b : string) : String x a +:+ b = String x (a +:+ b).
Proof. reflexivity. Qed.

Lemma append_assoc (a b c : string) : (a +:+ b) +:+ c = a +:+ b +:+ c.
Proof. induction a as [|x a IH]; [reflexivity|]. by rewrite !append_cons, IH. Qed.

Lemma text_app (l1 l2 : list string) : Py.text (l1 ++ l2) = Py.text l1 +:+ Py.text l2.
Proof.
  induction l1 as [|l l1 IH]; [reflexivity|].
  cbn [app Py.text foldr]. fold (Py.text (l1 ++ l2)). fold (Py.text l1).
  by rewrite IH, !append_assoc.
Qed.

(** The first f-string raises [KeyError] or starts the document with the
    header and the Overview table. *)
Lemma overview_returned (s : summary) (head : string) :
  overview s = Returned head →
  ∃ counts rest, sum_counts s = Some counts ∧
    head = Spec.report_head (last_updated s)
             +:+ Spec.overview_head (enterprises_cell counts) +:+ rest.
Proof.
  unfold overview. destruct (sum_counts s) as [counts|]; [|discriminate].
  unfold mbind, outcome_bind, obind.
  repeat match goal with
         | |- context [item counts ?k] =>
           destruct (item counts k) as [?| | |]; [|discriminate..]
         end.
  intros Heq. apply Returned_inj in Heq. subst head. exists counts.
  match goal with
  | |- ∃ rest, _ ∧ Py.text ?lines = _ => exists (Py.text (drop 11 lines))
  end.
  split; [reflexivity|].
  unfold Spec.report_head, Spec.overview_head.
  rewrite <- !text_app. reflexivity.
Qed.

Lemma content_returned (s : summary) (enterprises : list enterprise)
    (orgs : list organization) (repos : list repository) (doc : string) :
  content percent_1f s enterprises orgs repos = Returned doc →
  ∃ counts rest, sum_counts s = Some counts ∧
    doc = Spec.report_head (last_updated s)
            +:+ Spec.overview_head (enterprises_cell counts) +:+ rest.
Proof.
  unfold content. cbv zeta. unfold mbind, outcome_bind, obind.
  destruct (overview s) as [head| | |] eqn:Hhead; [|discriminate..].
  intros Heq. apply Returned_inj in Heq. subst doc.
  apply overview_returned in Hhead as (counts & rest & Hc & ->).
  exists counts. eexists. split; [exact Hc|].
  rewrite !append_assoc. reflexivity.
Qed.

(** A run of [generate_readme] either writes the document [content]
    returns, or leaves the files as they are. *)
Lemma generate_readme_cases (st : store) :
  (files (generate_readme percent_1f st) = st ∧
   ended (generate_readme percent_1f st) ≠ Returned tt
   ∨ generate_readme percent_1f st
     = {| ended := Returned tt; files := st;
          stdout := ["No summary data found, skipping README generation"] |})
  ∨ ∃ s doc, summary_json st = Some s ∧
      content percent_1f s (Py.get (enterprises_json st) [])
              (Py.get (organizations_json st) []) (Py.get (repositories_json st) [])
      = Returned doc ∧
      generate_readme percent_1f st
      = {| ended := Returned tt; files := Files.write_readme doc st;
           stdout := ["Generated README.md"] |}.
Proof.
  unfold generate_readme, load_json. cbv zeta.
  destruct (summary_json st) as [s|]; [|left; by right].
  destruct (summary_truthy (Some s)); [|left; by right].
  destruct (content percent_1f s _ _ _) as [doc| | |] eqn:Hc.
  - right. by exists s, doc.
  - left. left. done.
  - left. left. done.
  - left. left. done.
Qed.

Lemma generate_readme_same (st1 st2 : store) :
  Spec.same_snapshots st1 st2 →
  ended (generate_readme percent_1f st1) = ended (generate_readme percent_1f st2) ∧
  stdout (generate_readme percent_1f st1) = stdout (generate_readme percent_1f st2) ∧
  (files (generate_readme percent_1f st1) = st1 ∧
   files (generate_readme percent_1f st2) = st2
   ∨ ∃ s doc rest,
       summary_json st1 = Some s ∧
       doc = Spec.report_head (last_updated s) +:+ rest ∧
       files (generate_readme percent_1f st1) = Files.write_readme doc st1 ∧
       files (generate_readme percent_1f st2) = Files.write_readme doc st2).
Proof.
  intros (Hs & He & Ho & Hr).
  unfold generate_readme, load_json. cbv zeta. rewrite <- Hs, <- He, <- Ho, <- Hr.
  destruct (summary_json st1) as [s|]; [|by repeat split; left].
  destruct (summary_truthy (Some s)); [|by repeat split; left].
  destruct (content percent_1f s _ _ _) as [doc| | |] eqn:Hc; simpl;
    try (by repeat split; left).
  repeat split. right.
  apply content_returned in Hc as (counts & rest & _ & ->).
  by eexists s, _, _.
Qed.

Lemma main_ended (utcnow : string) (st : store) :
  ended (main percent_1f utcnow st) = ended (generate_readme percent_1f st) ∧
  files (main percent_1f utcnow st) = files (generate_readme percent_1f st).
Proof.
  unfold main. cbv zeta.
  destruct (ended (generate_readme percent_1f st)) as [[]| | |] eqn:He; simpl;
    by rewrite ?He.
Qed.

End ReporterRun.

(** * The properties of the specification *)

Section Claims.
Import Collector.

(** C1: for every fetch with a caller-specified limit [L], a count
    (repositories, starred repositories), that returns: the result has at
    most [L] items; it is the first [L] items of the pages accumulated in
    the order received; every page was requested while fewer than [L]
    items were accumulated, so the pagination stops once the count
    reaches [L]; and it is a prefix, the first [L] items, of what the
    same listing fetched without a limit accumulates. *)
Theorem limited_fetch_truncates {W : Type} (api : github W) (limit : Z)
    (fuel : nat) (w : W) :
  (0 ≤ limit)%Z →
  (∀ res, result (get_repositories api limit fuel w) = Returned res →
          Spec.truncation_of (q_repositories api) w limit
            (pages (get_repositories api limit fuel w)) res) ∧
  (∀ res, result (get_starred_repos api limit fuel w) = Returned res →
          Spec.truncation_of (q_starredRepositories api) w limit
            (pages (get_starred_repos api limit fuel w)) res).
Proof.
  intros Hlimit. split; intros res Hres; by apply fetch_limit_truncates.
Qed.

Lemma limited_fetch_truncates_witness :
  (0 ≤ 1)%Z ∧
  Spec.truncation_of (q_repositories Demo.api) 0%nat 1
    (pages (get_repositories Demo.api 1 5 0%nat))
    [Demo.repo "drzo/a" (Some "Go") false true].
Proof.
  split; [lia|].
  apply (proj1 (limited_fetch_truncates Demo.api 1 5 0%nat ltac:(lia))).
  reflexivity.
Defined.

(** C2, as stated, does not hold for the fetches with a limit: with the
    limit 1 and a first page of two repositories the result has one
    item, not the two of the page fetched. *)
Lemma sum_of_pages_counterexample :
  result (get_repositories Demo.api 1 5 0%nat)
    = Returned [Demo.repo "drzo/a" (Some "Go") false true] ∧
  page_sizes (pages (get_repositories Demo.api 1 5 0%nat)) = 2%nat ∧
  ¬ Spec.concatenation_of (pages (get_repositories Demo.api 1 5 0%nat))
      [Demo.repo "drzo/a" (Some "Go") false true].
Proof.
  split; [reflexivity|]. split; [reflexivity|].
  intros [_ Hlen]. vm_compute in Hlen. discriminate.
Qed.

(** C2 (amended): a fetch of organizations, followers, following or
    gists that returns, returns the concatenation of the pages in the
    order received, its length the sum of the page sizes, nothing
    reordered or removed.  A fetch of repositories or starred
    repositories returns that concatenation cut by [[:limit]]: the
    whole of it, with the length the sum of the page sizes, when that
    sum is at most the limit. *)
Theorem fetch_concatenates_pages {W : Type} (api : github W) (fuel : nat) (w : W) :
  (∀ res, result (get_organizations api fuel w) = Returned res →
          Spec.concatenation_of (pages (get_organizations api fuel w)) res) ∧
  (∀ res, result (get_followers api fuel w) = Returned res →
          Spec.concatenation_of (pages (get_followers api fuel w)) res) ∧
  (∀ res, result (get_following api fuel w) = Returned res →
          Spec.concatenation_of (pages (get_following api fuel w)) res) ∧
  (∀ res, result (get_gists api fuel w) = Returned res →
          Spec.concatenation_of (pages (get_gists api fuel w)) res) ∧
  (∀ limit res, result (get_repositories api limit fuel w) = Returned res →
     res = Py.slice_to (accumulation (pages (get_repositories api limit fuel w))) limit ∧
     ((Z.of_nat (page_sizes (pages (get_repositories api limit fuel w))) ≤ limit)%Z →
      Spec.concatenation_of (pages (get_repositories api limit fuel w)) res)) ∧
  (∀ limit res, result (get_starred_repos api limit fuel w) = Returned res →
     res = Py.slice_to (accumulation (pages (get_starred_repos api limit fuel w))) limit ∧
     ((Z.of_nat (page_sizes (pages (get_starred_repos api limit fuel w))) ≤ limit)%Z →
      Spec.concatenation_of (pages (get_starred_repos api limit fuel w)) res)).
Proof.
  assert (Hlim : ∀ A (query : W → option string → option (connection A) * W) limit res,
             result (fetch_limit query limit fuel w) = Returned res →
             res = Py.slice_to (accumulation (pages (fetch_limit query limit fuel w))) limit ∧
             ((Z.of_nat (page_sizes (pages (fetch_limit query limit fuel w))) ≤ limit)%Z →
              Spec.concatenation_of (pages (fetch_limit query limit fuel w)) res)).
  { intros A query limit res Hres.
    pose proof (fetch_limit_slice _ _ _ _ _ Hres) as Hslice.
    split; [exact Hslice|]. intros Hle. rewrite page_sizes_length in Hle.
    assert (res = accumulation (pages (fetch_limit query limit fuel w))) as Heq.
    { rewrite Hslice at 1. unfold Py.slice_to.
      destruct (0 <=? limit)%Z eqn:H0; [apply take_ge; lia|].
      apply Z.leb_gt in H0. lia. }
    split; [exact Heq|]. rewrite page_sizes_length. by rewrite Heq at 1. }
  split; [|split; [|split; [|split; [|split]]]].
  1-4: intros res Hres; by apply fetch_all_concatenates.
  all: intros limit res Hres; by apply Hlim.
Qed.

Lemma fetch_concatenates_pages_witness :
  Spec.concatenation_of (pages (get_organizations Demo.api 5 0%nat))
    [Demo.org "cogcities" 12; Demo.org "regima-uk" 3; Demo.org "o9nn" 7].
Proof.
  apply (proj1 (fetch_concatenates_pages Demo.api 5 0%nat)). reflexivity.
Defined.

(** C3: organization categorization is total.  The category of an
    organization is decided by its lowercased login alone, by the first
    matching rule of the ordered list, ["Other"] when none matches, and
    is one of the seven fixed names.  The returned dictionary holds, for
    each name with members, exactly the organizations of that category
    in input order; every organization of the input is in the list of
    its category and in no other; and the lists together are the input,
    rearranged. *)
Theorem categorization_total (orgs : list organization) :
  (∀ org, Reporter.category_of org
          = Spec.first_match Spec.rules "Other" (Py.lower (Py.get (org_login org) ""))
          ∧ Reporter.category_of org ∈ Reporter.category_names) ∧
  (∀ org1 org2,
      Py.lower (Py.get (org_login org1) "") = Py.lower (Py.get (org_login org2) "") →
      Reporter.category_of org1 = Reporter.category_of org2) ∧
  (∀ k l, (k, l) ∈ Reporter.categorize_organizations orgs
          ↔ k ∈ Reporter.category_names ∧ l = Spec.members k orgs ∧ l ≠ []) ∧
  (∀ org, org ∈ orgs →
      ∃ l, (Reporter.category_of org, l) ∈ Reporter.categorize_organizations orgs ∧
           org ∈ l ∧
           ∀ k' l', (k', l') ∈ Reporter.categorize_organizations orgs → org ∈ l' →
                    k' = Reporter.category_of org) ∧
  concat (map snd (Reporter.categorize_organizations orgs)) ≡ₚ orgs.
Proof.
  split; [|split; [|split; [|split]]].
  - intros org. split; [reflexivity | apply category_of_login_named].
  - intros org1 org2 Heq. unfold Reporter.category_of. by rewrite Heq.
  - apply elem_of_categorize.
  - intros org Hin.
    assert (org ∈ Spec.members (Reporter.category_of org) orgs) as Hmem.
    { unfold Spec.members. by apply list_elem_of_filter. }
    exists (Spec.members (Reporter.category_of org) orgs). split; [|split].
    + apply elem_of_categorize. split; [apply category_of_login_named|].
      split; [reflexivity|]. intros Hnil. rewrite Hnil in Hmem.
      by apply elem_of_nil in Hmem.
    + exact Hmem.
    + intros k' l' Hkl Hl'. apply elem_of_categorize in Hkl as (_ & -> & _).
      unfold Spec.members in Hl'. apply list_elem_of_filter in Hl' as [Hk _]. by symmetry.
  - rewrite categorize_organizations_eq, concat_nonempty.
    unfold Spec.filled. rewrite map_map. simpl. apply members_partition.
Qed.

Lemma categorization_total_witness :
  Reporter.categorize_organizations [Demo.org "cogcities" 12; Demo.org "regima-uk" 3]
    = [("Core Cognitive", [Demo.org "cogcities" 12]);
       ("RegimA Network", [Demo.org "regima-uk" 3])] ∧
  ∃ l, (Reporter.category_of (Demo.org "regima-uk" 3), l)
         ∈ Reporter.categorize_organizations
             [Demo.org "cogcities" 12; Demo.org "regima-uk" 3] ∧
       Demo.org "regima-uk" 3 ∈ l ∧
       ∀ k' l', (k', l') ∈ Reporter.categorize_organizations
                            [Demo.org "cogcities" 12; Demo.org "regima-uk" 3] →
                Demo.org "regima-uk" 3 ∈ l' →
                k' = Reporter.category_of (Demo.org "regima-uk" 3).
Proof.
  split; [reflexivity|].
  apply (proj1 (proj2 (proj2 (proj2
           (categorization_total [Demo.org "cogcities" 12; Demo.org "regima-uk" 3]))))).
  apply list_elem_of_further, list_elem_of_here.
Defined.

(** C4: for every repository list the tallies of [analyze_repositories]
    satisfy public + private = total, forks + original = total, and the
    counts of the language histogram sum to the total minus the number
    of repositories without a primary language, hence to at most the
    total. *)
Theorem repository_statistics_consistent (repos : list repository) :
  let total := Z.of_nat (length repos) in
  let s := Reporter.analyze_repositories repos in
  (Reporter.public s + Reporter.private s = total)%Z ∧
  (Reporter.forks s + Reporter.original s = total)%Z ∧
  (Py.sum_values (Reporter.languages s) = total - Spec.no_language repos)%Z ∧
  (Py.sum_values (Reporter.languages s) ≤ total)%Z.
Proof.
  cbv zeta. unfold Reporter.analyze_repositories.
  destruct (analyze_fold repos
              {| Reporter.public := 0; Reporter.private := 0; Reporter.forks := 0;
                 Reporter.original := 0; Reporter.archived := 0;
                 Reporter.languages := []; Reporter.by_owner := [] |})
    as (Hp & Hf & Hl).
  cbn [Reporter.public Reporter.private Reporter.forks Reporter.original
       Reporter.languages] in Hp, Hf, Hl.
  change (Py.sum_values []) with 0%Z in Hl.
  pose proof (no_language_bounds repos). lia.
Qed.

(** C7: under each rendered category the rows are those of the first
    ten organizations of the category sorted by repository count,
    largest first; the sort keeps the organizations of equal count in
    the order they have in the input list. *)
Theorem top_organizations_listed (orgs : list organization) (category : string)
    (org_list : list organization) :
  (category, org_list) ∈ Reporter.categorize_organizations orgs →
  let sorted := Py.sorted_desc Reporter.by_repo_count org_list in
  Reporter.category_section (category, org_list)
    = "### " +:+ category +:+ Py.nl +:+ Py.nl +:+ Reporter.org_table_head
        +:+ Reporter.concat_str (map (Reporter.org_row 50) (take 10 sorted)) +:+ Py.nl ∧
  (length (take 10 sorted) ≤ 10)%nat ∧
  sorted ≡ₚ Spec.members category orgs ∧
  StronglySorted (Spec.desc Reporter.by_repo_count) sorted ∧
  ∀ n, filter (λ org, Reporter.by_repo_count org = n) sorted
       = filter (λ org, Reporter.by_repo_count org = n) (Spec.members category orgs).
Proof.
  intros Hin. cbv zeta. apply elem_of_categorize in Hin as (_ & -> & Hne).
  split; [|split; [|split; [|split]]].
  - unfold Reporter.category_section, Reporter.listed.
    destruct (Spec.members category orgs); [done | reflexivity].
  - rewrite length_take. lia.
  - apply sorted_desc_perm.
  - apply sorted_desc_sorted.
  - intros n. apply sorted_desc_stable.
Qed.

Lemma top_organizations_listed_witness :
  let orgs := [Demo.org "cog-a" 3; Demo.org "regima-uk" 3; Demo.org "oz-b" 12;
               Demo.org "echo-c" 3] in
  let members := [Demo.org "cog-a" 3; Demo.org "oz-b" 12; Demo.org "echo-c" 3] in
  ("Core Cognitive", members) ∈ Reporter.categorize_organizations orgs ∧
  Py.sorted_desc Reporter.by_repo_count members
    = [Demo.org "oz-b" 12; Demo.org "cog-a" 3; Demo.org "echo-c" 3] ∧
  ∀ n, filter (λ org, Reporter.by_repo_count org = n)
              (Py.sorted_desc Reporter.by_repo_count members)
       = filter (λ org, Reporter.by_repo_count org = n) (Spec.members "Core Cognitive" orgs).
Proof.
  cbv zeta. split; [apply list_elem_of_here|]. split; [reflexivity|].
  apply (top_organizations_listed
           [Demo.org "cog-a" 3; Demo.org "regima-uk" 3; Demo.org "oz-b" 12;
            Demo.org "echo-c" 3]
           "Core Cognitive"
           [Demo.org "cog-a" 3; Demo.org "oz-b" 12; Demo.org "echo-c" 3]).
  apply list_elem_of_here.
Defined.

(** C8: the mapping of [map_orgs_to_enterprises] has an entry for a
    login exactly when some enterprise nests an organization of that
    login, and the entry holds the name and slug of the last such
    enterprise of the list: a later enterprise overwrites an earlier one
    without notice. *)
Theorem enterprise_mapping_last_wins (enterprises before after : list enterprise)
    (ent : enterprise) (login : option string) :
  enterprises = before ++ ent :: after →
  login ∈ Spec.nested_logins ent →
  (∀ later, later ∈ after → login ∉ Spec.nested_logins later) →
  Reporter.map_orgs_to_enterprises enterprises !! login = Some (Spec.parent_of ent) ∧
  ∀ other, is_Some (Reporter.map_orgs_to_enterprises enterprises !! other)
           ↔ ∃ e, e ∈ enterprises ∧ other ∈ Spec.nested_logins e.
Proof.
  intros -> Hin Hlater. rewrite map_orgs_to_enterprises_fold. split.
  - rewrite fold_left_app. cbn [fold_left].
    rewrite add_enterprises_other by exact Hlater.
    rewrite add_nodes_lookup. fold (Spec.nested_logins ent).
    by rewrite decide_True.
  - intros other. rewrite add_enterprises_dom, lookup_empty. split.
    + intros [[? [=]] | H]; exact H.
    + intros H. by right.
Qed.

Lemma enterprise_mapping_last_wins_witness :
  Reporter.map_orgs_to_enterprises Demo.enterprises !! Some "shared"
    = Some {| Reporter.enterprise_name := "Beta"; Reporter.enterprise_slug := "beta" |}.
Proof.
  apply (enterprise_mapping_last_wins Demo.enterprises
           [Demo.ent "Alpha" "alpha" [Demo.org "cogcities" 12; Demo.org "shared" 1]]
           []
           (Demo.ent "Beta" "beta" [Demo.org "shared" 1])
           (Some "shared")).
  - reflexivity.
  - apply list_elem_of_here.
  - intros later Hlater. inversion Hlater.
Defined.

(** C9: no organization is ever put in the category ["Echo Mirrors"],
    and the returned dictionary never has that key: a lowercased login
    that contains ["org-echo"] contains ["echo"], so the first rule has
    already put it in ["Core Cognitive"]. *)
Theorem echo_mirrors_never_assigned (orgs : list organization) :
  (∀ org, Reporter.category_of org ≠ "Echo Mirrors") ∧
  ("Echo Mirrors" ∉ map fst (Reporter.categorize_organizations orgs)) ∧
  (∀ login, Py.contains "org-echo" login = true →
            Py.any_in ["cog"; "oz"; "echo"] login = true ∧
            Reporter.category_of_login login = "Core Cognitive").
Proof.
  split; [|split].
  - intros org. apply category_of_login_not_echo.
  - intros Hin. apply list_elem_of_fmap in Hin as ([k l] & Hk & Hin). simpl in Hk. subst k.
    apply elem_of_categorize in Hin as (_ & -> & Hne). apply Hne.
    apply members_echo_empty.
  - intros login Hecho. apply org_echo_has_echo in Hecho.
    assert (Py.any_in ["cog"; "oz"; "echo"] login = true) as Hany.
    { unfold Py.any_in. cbn [existsb]. rewrite Hecho. by rewrite !orb_true_r. }
    split; [exact Hany|]. unfold Reporter.category_of_login. by rewrite Hany.
Qed.

Lemma echo_mirrors_never_assigned_witness :
  Py.contains "org-echo" "org-echo-7" = true ∧
  Reporter.category_of_login "org-echo-7" = "Core Cognitive".
Proof.
  split; [reflexivity|].
  apply (proj2 (proj2 (echo_mirrors_never_assigned []))). reflexivity.
Defined.

(** C5, as stated, does not hold: the header field does not carry the
    time of the render.  Two renders of the same snapshots at two
    different times write the same document, header included, and the
    [Last Updated] field shows the timestamp stored in the summary. *)
Lemma header_timestamp_counterexample :
  readme_md (Reporter.files
               (Reporter.main Demo.percent_1f "2030-01-01T00:00:00" Demo.collected))
  = readme_md (Reporter.files
                 (Reporter.main Demo.percent_1f "2031-12-31T23:59:59" Demo.collected)) ∧
  (λ doc, Py.startswith doc (Spec.report_head "2024-06-01T00:00:00.13Z"))
    <$> readme_md (Reporter.files
                     (Reporter.main Demo.percent_1f "2030-01-01T00:00:00" Demo.collected))
  = Some true ∧
  (λ doc, Py.startswith doc (Spec.report_head "2030-01-01T00:00:00Z"))
    <$> readme_md (Reporter.files
                     (Reporter.main Demo.percent_1f "2030-01-01T00:00:00" Demo.collected))
  = Some false.
Proof. split; [|split]; vm_compute; reflexivity. Qed.

(** C5 (amended): the report is a function of the four snapshots
    (summary, enterprises, organizations, repositories) alone.  Two runs
    on stores that hold the same four snapshots, at any two times and
    whatever the other files hold, end the same way, and either both
    leave the files untouched or both write the same document, header
    included: its [Last Updated] field is the timestamp of the summary
    (["Unknown"] when it has none), not the time of the render. *)
Theorem rendering_deterministic (percent_1f : Z → Z → string)
    (utcnow1 utcnow2 : string) (st1 st2 : store) :
  Spec.same_snapshots st1 st2 →
  Reporter.ended (Reporter.main percent_1f utcnow1 st1)
    = Reporter.ended (Reporter.main percent_1f utcnow2 st2) ∧
  (Reporter.files (Reporter.main percent_1f utcnow1 st1) = st1 ∧
   Reporter.files (Reporter.main percent_1f utcnow2 st2) = st2
   ∨ ∃ s doc rest,
       summary_json st1 = Some s ∧
       doc = Spec.report_head (Reporter.last_updated s) +:+ rest ∧
       Reporter.files (Reporter.main percent_1f utcnow1 st1) = Files.write_readme doc st1 ∧
       Reporter.files (Reporter.main percent_1f utcnow2 st2) = Files.write_readme doc st2).
Proof.
  intros Hsame.
  destruct (main_ended percent_1f utcnow1 st1) as [-> ->].
  destruct (main_ended percent_1f utcnow2 st2) as [-> ->].
  destruct (generate_readme_same percent_1f st1 st2 Hsame) as (He & _ & Hf).
  split; [exact He | exact Hf].
Qed.

Lemma rendering_deterministic_witness :
  Spec.same_snapshots Demo.collected Demo.collected' ∧
  Reporter.ended (Reporter.main Demo.percent_1f "2030-01-01T00:00:00" Demo.collected)
    = Reporter.ended (Reporter.main Demo.percent_1f "2031-12-31T23:59:59" Demo.collected').
Proof.
  assert (Spec.same_snapshots Demo.collected Demo.collected') as Hsame.
  { repeat split; reflexivity. }
  split; [exact Hsame|].
  apply (rendering_deterministic Demo.percent_1f "2030-01-01T00:00:00"
           "2031-12-31T23:59:59" Demo.collected Demo.collected' Hsame).
Defined.

(** C6: when [summary.json] is absent the Reporter ends normally,
    writes nothing (the files are as they were, no [README.md] is
    produced), and prints the skip message between the lines of its
    banner; nothing else happens. *)
Theorem absent_summary_skips (percent_1f : Z → Z → string) (utcnow : string)
    (st : store) :
  summary_json st = None →
  Reporter.main percent_1f utcnow st
  = {| Reporter.ended := Returned tt;
       Reporter.files := st;
       Reporter.stdout :=
         [Reporter.rule; "DrZo Ecosystem Report Generator";
          "Timestamp: " +:+ utcnow +:+ "Z"; Reporter.rule;
          "No summary data found, skipping README generation";
          Py.nl +:+ Reporter.rule; "Report generation complete!"; Reporter.rule] |}.
Proof.
  intros Habsent. unfold Reporter.main, Reporter.generate_readme, Reporter.load_json.
  cbv zeta. rewrite Habsent. reflexivity.
Qed.

Lemma absent_summary_skips_witness :
  summary_json Demo.only_enterprises = None ∧
  readme_md (Reporter.files
               (Reporter.main Demo.percent_1f "2030-01-01T00:00:00" Demo.only_enterprises))
  = None ∧
  Reporter.ended
    (Reporter.main Demo.percent_1f "2030-01-01T00:00:00" Demo.only_enterprises)
  = Returned tt.
Proof.
  split; [reflexivity|].
  rewrite (absent_summary_skips Demo.percent_1f "2030-01-01T00:00:00"
             Demo.only_enterprises eq_refl).
  split; reflexivity.
Defined.

End Claims.

(** * Further properties of the code *)

(** ** Pagination: fuel, cursors, completeness, bounds *)

Section PaginationMore.
Import Collector.
Context {W A : Type}.
Variable query : W → option string → option (connection A) * W.

(** A loop that ended with the fuel it had ends the same way with more. *)
Lemma fetch_loop_more_fuel (guard : list A → bool) (fuel fuel' : nat) (w : W)
    (acc : list A) (cursor : option string) (seen : list (connection A)) :
  (fuel ≤ fuel')%nat →
  result (fetch_loop query guard fuel w acc cursor seen) ≠ OutOfFuel →
  fetch_loop query guard fuel' w acc cursor seen
  = fetch_loop query guard fuel w acc cursor seen.
Proof.
  revert fuel' w acc cursor seen.
  induction fuel as [|fuel IH]; intros fuel' w acc cursor seen Hle;
    rewrite (fetch_loop_unfold query guard fuel'), (fetch_loop_unfold query guard).
  - destruct (guard acc); simpl; [intros H; by destruct H | reflexivity].
  - destruct (guard acc); simpl; [|reflexivity].
    destruct fuel' as [|fuel']; [lia|].
    destruct (query w cursor) as [[data|] w']; [|reflexivity].
    destruct (negb (Py.truthy _)); [reflexivity|].
    destruct (pageInfo data ≫= endCursor) as [cursor'|]; [|reflexivity].
    intros Hres. apply IH; [lia | exact Hres].
Qed.

(** The pages a loop receives are those met by following the end cursors. *)
Lemma fetch_loop_follows (guard : list A → bool) (fuel : nat) (w : W)
    (acc : list A) (cursor : option string) (seen : list (connection A)) :
  ∃ new, pages (fetch_loop query guard fuel w acc cursor seen) = seen ++ new ∧
         new `prefix_of` Props.follow query fuel w cursor ∧
         ((∀ l, guard l = true) → new = Props.follow query fuel w cursor).
Proof.
  revert w acc cursor seen.
  induction fuel as [|fuel IH]; intros w acc cursor seen; rewrite fetch_loop_unfold.
  - exists []. destruct (guard acc); simpl; rewrite app_nil_r; done.
  - destruct (guard acc) eqn:Hg; simpl.
    2: { exists []. rewrite app_nil_r. split; [reflexivity|].
         split; [apply prefix_nil|]. intros Hall. rewrite Hall in Hg. discriminate. }
    destruct (query w cursor) as [[data|] w'].
    2: { exists []. rewrite app_nil_r. done. }
    unfold Props.has_next.
    destruct (Py.truthy _); simpl.
    2: { exists [data]. done. }
    destruct (pageInfo data ≫= endCursor) as [cursor'|].
    2: { exists [data]. done. }
    destruct (IH w' (acc ++ page_items data) cursor' (seen ++ [data]))
      as (new & Hp & Hpre & Hall).
    exists (data :: new). split; [by rewrite Hp, <- app_assoc|].
    split; [by apply prefix_cons | intros H; by rewrite (Hall H)].
Qed.

(** A loop without a condition returns only at a page without a next
    page; all the pages before it announced one. *)
Lemma fetch_loop_complete (fuel : nat) (w : W) (acc : list A)
    (cursor : option string) (seen : list (connection A)) (res : list A) :
  result (fetch_loop query (fun _ => true) fuel w acc cursor seen) = Returned res →
  ∃ before last,
    pages (fetch_loop query (fun _ => true) fuel w acc cursor seen)
      = seen ++ before ++ [last] ∧
    Props.has_next last = false ∧
    Forall (λ p, Props.has_next p = true ∧ is_Some (pageInfo p ≫= endCursor)) before.
Proof.
  revert w acc cursor seen.
  induction fuel as [|fuel IH]; intros w acc cursor seen; rewrite fetch_loop_unfold;
    simpl; [discriminate|].
  destruct (query w cursor) as [[data|] w']; [|discriminate].
  destruct (Py.truthy _) eqn:Hn; simpl.
  2: { intros _. exists [], data. split; [reflexivity|]. split; [exact Hn | constructor]. }
  destruct (pageInfo data ≫= endCursor) as [cursor'|] eqn:Hc; [|discriminate].
  intros Hres. destruct (IH _ _ _ _ Hres) as (before & last & Hp & Hl & Hb).
  exists (data :: before), last. split; [by rewrite Hp, <- app_assoc|].
  split; [exact Hl|]. constructor; [|exact Hb]. split; [exact Hn | by rewrite Hc].
Qed.

(** A loop that ran out of fuel received one page per unit of fuel, and
    its condition still held. *)
Lemma fetch_loop_out_of_fuel (guard : list A → bool) (fuel : nat) (w : W)
    (acc : list A) (cursor : option string) (seen : list (connection A)) :
  result (fetch_loop query guard fuel w acc cursor seen) = OutOfFuel →
  ∃ new, pages (fetch_loop query guard fuel w acc cursor seen) = seen ++ new ∧
         length new = fuel ∧ guard (acc ++ accumulation new) = true.
Proof.
  revert w acc cursor seen.
  induction fuel as [|fuel IH]; intros w acc cursor seen; rewrite fetch_loop_unfold.
  - destruct (guard acc) eqn:Hg; simpl; [|discriminate].
    intros _. exists []. by rewrite !app_nil_r.
  - destruct (guard acc) eqn:Hg; simpl; [|discriminate].
    destruct (query w cursor) as [[data|] w']; [|discriminate].
    destruct (negb (Py.truthy _)); [discriminate|].
    destruct (pageInfo data ≫= endCursor) as [cursor'|]; [|discriminate].
    intros Hres. destruct (IH _ _ _ _ Hres) as (new & Hp & Hlen & Hguard).
    exists (data :: new). split; [by rewrite Hp, <- app_assoc|].
    split; [simpl; lia|]. by rewrite accumulation_cons, app_assoc.
Qed.

Lemma accumulation_at_least (ps : list (connection A)) :
  Forall (λ p, page_items p ≠ []) ps → (length ps ≤ length (accumulation ps))%nat.
Proof.
  induction 1 as [|p ps Hp _ IH]; [reflexivity|].
  rewrite accumulation_cons, length_app. simpl.
  destruct (page_items p); [done | simpl; lia].
Qed.

(** The pages of [fetch_limit] are those of its loop, whatever the end. *)
Lemma fetch_limit_pages (limit : Z) (fuel : nat) (w : W) :
  pages (fetch_limit query limit fuel w)
  = pages (fetch_loop query (fun acc => (Z.of_nat (length acc) <? limit)%Z)
                      fuel w [] None []).
Proof.
  unfold fetch_limit.
  by destruct (result (fetch_loop query _ fuel w [] None [])).
Qed.

Lemma fetch_limit_out_of_fuel (limit : Z) (fuel : nat) (w : W) :
  result (fetch_limit query limit fuel w) = OutOfFuel →
  result (fetch_loop query (fun acc => (Z.of_nat (length acc) <? limit)%Z)
                     fuel w [] None []) = OutOfFuel.
Proof.
  unfold fetch_limit.
  by destruct (result (fetch_loop query _ fuel w [] None [])) eqn:Hr; simpl; rewrite ?Hr.
Qed.

End PaginationMore.

Section PaginationBounds.
Import Collector.
Context {W A : Type}.
Variable query : W → option string → option (connection A) * W.

Lemma fetch_all_more_fuel (fuel fuel' : nat) (w : W) :
  (fuel ≤ fuel')%nat → result (fetch_all query fuel w) ≠ OutOfFuel →
  fetch_all query fuel' w = fetch_all query fuel w.
Proof. intros Hle Hres. by apply fetch_loop_more_fuel. Qed.

Lemma fetch_limit_more_fuel (limit : Z) (fuel fuel' : nat) (w : W) :
  (fuel ≤ fuel')%nat → result (fetch_limit query limit fuel w) ≠ OutOfFuel →
  fetch_limit query limit fuel' w = fetch_limit query limit fuel w.
Proof.
  intros Hle Hres. unfold fetch_limit.
  rewrite (fetch_loop_more_fuel query _ fuel fuel'); [reflexivity | exact Hle |].
  intros Hout. apply Hres. unfold fetch_limit. by rewrite Hout.
Qed.

Lemma fetch_all_complete (fuel : nat) (w : W) (res : list A) :
  result (fetch_all query fuel w) = Returned res →
  Props.complete_listing query fuel w (pages (fetch_all query fuel w)).
Proof.
  intros Hres. unfold fetch_all in *. split.
  - destruct (fetch_loop_follows query (fun _ => true) fuel w [] None [])
      as (new & Hp & _ & Hall).
    rewrite Hp. simpl. by apply Hall.
  - destruct (fetch_loop_complete query fuel w [] None [] res Hres)
      as (before & last & Hp & Hl & Hb).
    by exists before, last.
Qed.

Lemma fetch_limit_follows (limit : Z) (fuel : nat) (w : W) :
  pages (fetch_limit query limit fuel w) `prefix_of` Props.follow query fuel w None.
Proof.
  rewrite fetch_limit_pages.
  destruct (fetch_loop_follows query (fun acc => (Z.of_nat (length acc) <? limit)%Z)
              fuel w [] None []) as (new & Hp & Hpre & _).
  by rewrite Hp.
Qed.

Lemma fetch_limit_bounded (limit : Z) (n fuel : nat) (w : W) :
  (0 ≤ limit)%Z → (1 ≤ n)%nat →
  Props.page_sizes_within n (pages (fetch_limit query limit fuel w)) →
  Props.bounded_fetch limit n fuel (fetch_limit query limit fuel w).
Proof.
  intros Hlimit Hn Hsizes. unfold Props.bounded_fetch, Props.page_sizes_within in *.
  assert (Hnonempty : ∀ ps : list (connection A),
             Forall (λ p, (1 ≤ length (page_items p) ≤ n)%nat) ps →
             Forall (λ p, page_items p ≠ []) ps).
  { intros ps Hps. eapply Forall_impl; [exact Hps|].
    intros p [H1 _] Hnil. rewrite Hnil in H1. simpl in H1. lia. }
  rewrite fetch_limit_pages in Hsizes |- *.
  destruct (fetch_loop_pages query (fun acc => (Z.of_nat (length acc) <? limit)%Z)
              fuel w [] None []) as (new & Hp & _ & Hg).
  rewrite Hp in Hsizes |- *. simpl in Hsizes |- *.
  assert (Hlast : ∀ before p, new = before ++ [p] →
             (Z.of_nat (length before) < limit)%Z ∧
             (Z.of_nat (length (accumulation new)) < limit + Z.of_nat n)%Z).
  { intros before p ->. specialize (Hg before p [] eq_refl). simpl in Hg.
    apply Z.ltb_lt in Hg. apply Forall_app in Hsizes as [Hb Hp'].
    apply Forall_inv in Hp'.
    pose proof (accumulation_at_least _ (Hnonempty _ Hb)).
    rewrite accumulation_app, length_app. unfold accumulation at 2. simpl.
    rewrite app_nil_r. lia. }
  split; [|split].
  - destruct new as [|p new _] using rev_ind; [simpl; lia|].
    destruct (Hlast new p eq_refl) as [Hb _]. rewrite length_app. simpl. lia.
  - destruct new as [|p new _] using rev_ind; [simpl; lia|].
    by destruct (Hlast new p eq_refl).
  - intros Hfuel Hout. apply fetch_limit_out_of_fuel in Hout.
    apply fetch_loop_out_of_fuel in Hout as (new' & Hp' & Hlen & Hguard).
    rewrite Hp in Hp'. simpl in Hp'. subst new'. simpl in Hguard.
    apply Z.ltb_lt in Hguard.
    pose proof (accumulation_at_least _ (Hnonempty _ Hsizes)). lia.
Qed.

End PaginationBounds.

Section ExtraPagination.
Import Collector.

(** X2: a fetch without a limit (organizations, followers, following,
    gists) returns only a complete listing: the pages it received are
    those met by following each page's end cursor from the unset cursor,
    the last of them announces no next page and every earlier one
    announces one and carries an end cursor. *)
Theorem unlimited_fetch_is_complete {W : Type} (api : github W) (fuel : nat) (w : W) :
  (∀ res, result (get_organizations api fuel w) = Returned res →
     Props.complete_listing (q_organizations api) fuel w
       (pages (get_organizations api fuel w))) ∧
  (∀ res, result (get_followers api fuel w) = Returned res →
     Props.complete_listing (q_followers api) fuel w (pages (get_followers api fuel w))) ∧
  (∀ res, result (get_following api fuel w) = Returned res →
     Props.complete_listing (q_following api) fuel w (pages (get_following api fuel w))) ∧
  (∀ res, result (get_gists api fuel w) = Returned res →
     Props.complete_listing (q_gists api) fuel w (pages (get_gists api fuel w))).
Proof.
  split; [|split; [|split]]; intros res Hres; by eapply fetch_all_complete.
Qed.

Lemma unlimited_fetch_is_complete_witness :
  Props.complete_listing (q_organizations Demo.api) 5 0%nat
    (pages (get_organizations Demo.api 5 0%nat)).
Proof.
  apply (proj1 (unlimited_fetch_is_complete Demo.api 5 0%nat)
           [Demo.org "cogcities" 12; Demo.org "regima-uk" 3; Demo.org "o9nn" 7]).
  reflexivity.
Defined.

(** X3: a fetch with a limit asks for pages along the same chain of end
    cursors and stops somewhere on it: the pages it received are a prefix
    of the pages met by following the cursors, whatever the limit and
    however the fetch ends. *)
Theorem limited_fetch_follows_cursors {W : Type} (api : github W) (limit : Z) (fuel : nat) (w : W) :
  pages (get_repositories api limit fuel w)
    `prefix_of` Props.follow (q_repositories api) fuel w None ∧
  pages (get_starred_repos api limit fuel w)
    `prefix_of` Props.follow (q_starredRepositories api) fuel w None.
Proof. split; apply fetch_limit_follows. Qed.

(** X4: when every page received holds at least one and at most [n]
    items, a fetch with a limit [L >= 0] receives at most [L] pages,
    accumulates fewer than [L + n] items (so fewer than [n] are fetched
    and cut off), and does not run out of a fuel of at least [L]: the
    loop of [get_repositories] and [get_starred_repos] terminates. *)
Theorem limited_fetch_is_bounded {W : Type} (api : github W) (limit : Z) (n fuel : nat) (w : W) :
  (0 ≤ limit)%Z → (1 ≤ n)%nat →
  (Props.page_sizes_within n (pages (get_repositories api limit fuel w)) →
   Props.bounded_fetch limit n fuel (get_repositories api limit fuel w)) ∧
  (Props.page_sizes_within n (pages (get_starred_repos api limit fuel w)) →
   Props.bounded_fetch limit n fuel (get_starred_repos api limit fuel w)).
Proof. intros Hlimit Hn. split; by apply fetch_limit_bounded. Qed.

Lemma limited_fetch_is_bounded_witness :
  (0 ≤ 1)%Z ∧ (1 ≤ 2)%nat ∧
  Props.bounded_fetch 1 2 5 (get_repositories Demo.api 1 5 0%nat).
Proof.
  split; [lia|]. split; [lia|].
  apply (proj1 (limited_fetch_is_bounded Demo.api 1 2 5 0%nat ltac:(lia) ltac:(lia))).
  repeat constructor.
Defined.

End ExtraPagination.

(** ** The Collector's run, however it ends *)

Section CollectorOutcomes.
Import Collector CollectorMain.
Context {W : Type} (api : github W).

Lemma bind_print {B} (line : string) (k : unit → M W B) (s : state W) :
  (print line ≫= k) s
  = k tt {| api_state := api_state s; files := CollectorMain.files s;
            stdout := stdout s ++ [line] |}.
Proof. reflexivity. Qed.

Lemma bind_save_data {B} (filename : string) (write : store → store)
    (k : unit → M W B) (s : state W) :
  (save_data filename write ≫= k) s
  = k tt {| api_state := api_state s; files := write (CollectorMain.files s);
            stdout := stdout s ++ ["Saved data/" +:+ filename] |}.
Proof. reflexivity. Qed.

Lemma bind_now {B} (k : string → M W B) (s : state W) :
  (now api ≫= k) s = k (utcnow_isoformat api (api_state s)) s.
Proof. reflexivity. Qed.

Lemma bind_call {A B} (f : W → outcome A * W) (k : A → M W B) (s : state W) :
  (call f ≫= k) s
  = let s' := {| api_state := (f (api_state s)).2; files := CollectorMain.files s;
                 stdout := stdout s |} in
    match (f (api_state s)).1 with
    | Returned a => k a s'
    | Raised e => (Raised e, s')
    | Exited n => (Exited n, s')
    | OutOfFuel => (OutOfFuel, s')
    end.
Proof. reflexivity. Qed.

Lemma bind_call_fetch {A B} (f : W → fetched W A) (k : list A → M W B) (s : state W) :
  (call_fetch f ≫= k) s
  = let s' := {| api_state := world (f (api_state s)); files := CollectorMain.files s;
                 stdout := stdout s |} in
    match result (f (api_state s)) with
    | Returned a => k a s'
    | Raised e => (Raised e, s')
    | Exited n => (Exited n, s')
    | OutOfFuel => (OutOfFuel, s')
    end.
Proof. reflexivity. Qed.

Section Ensures.
Variable R : store → store → Prop.
Context `{!Reflexive R, !Transitive R}.

Lemma ensures_print (line : string) (ok : store → store → Prop) :
  (∀ st, ok st st) → Props.ensures (print (W:=W) line) ok R.
Proof. intros Hok s o s' [= <- <-]. apply Hok. Qed.

Lemma ensures_now (ok : store → store → Prop) :
  (∀ st, ok st st) → Props.ensures (now api) ok R.
Proof. intros Hok s o s' [= <- <-]. apply Hok. Qed.

Lemma ensures_exit {A} (status : Z) (ok : store → store → Prop) :
  Props.ensures (exit (W:=W) (A:=A) status) ok R.
Proof. intros s o s' [= <- <-]. reflexivity. Qed.

Lemma ensures_save_data (filename : string) (write : store → store)
    (ok : store → store → Prop) :
  (∀ st, ok st (write st)) → Props.ensures (save_data (W:=W) filename write) ok R.
Proof. intros Hok s o s' [= <- <-]. apply Hok. Qed.

Lemma ensures_call {A} (f : W → outcome A * W) :
  Props.ensures (call f) R R.
Proof.
  intros s o s'. unfold call. intros Heq.
  apply pair_equal_spec in Heq as [<- <-]. simpl. by destruct (f (api_state s)).1.
Qed.

Lemma ensures_call_fetch {A} (f : W → fetched W A) :
  Props.ensures (call_fetch f) R R.
Proof.
  intros s o s'. unfold call_fetch. intros Heq.
  apply pair_equal_spec in Heq as [<- <-]. simpl. by destruct (result (f (api_state s))).
Qed.

Lemma ensures_bind {A B} (c : M W A) (k : A → M W B) (ok : store → store → Prop) :
  (∀ x y z, R x y → ok y z → ok x z) →
  Props.ensures c R R → (∀ a, Props.ensures (k a) ok R) →
  Props.ensures (c ≫= k) ok R.
Proof.
  intros Hok Hc Hk s o s'. unfold mbind, M_bind, bind.
  destruct (c s) as [oc sc] eqn:Hcs. specialize (Hc s oc sc Hcs).
  destruct oc as [a| | |].
  - intros Hks. specialize (Hk a sc o s' Hks).
    destruct o; [by eapply Hok | by etransitivity..].
  - intros Heq. apply pair_equal_spec in Heq as [<- <-]. exact Hc.
  - intros Heq. apply pair_equal_spec in Heq as [<- <-]. exact Hc.
  - intros Heq. apply pair_equal_spec in Heq as [<- <-]. exact Hc.
Qed.

(** A statement that always returns guarantees anything of the case
    where it does not. *)
Lemma ensures_returns {A} (c : M W A) :
  (∀ s, ∃ a, (c s).1 = Returned a) → Props.ensures c (λ _ _, True) R.
Proof.
  intros Hc s o s' Heq. destruct (Hc s) as [a Ha]. rewrite Heq in Ha. simpl in Ha.
  by subst o.
Qed.

End Ensures.

End CollectorOutcomes.

#[local] Instance same_foreign_files_refl : Reflexive Props.same_foreign_files.
Proof. by intros st. Qed.

#[local] Instance same_foreign_files_trans : Transitive Props.same_foreign_files.
Proof. intros x y z [H1 H2] [H3 H4]. split; congruence. Qed.

#[local] Instance same_summary_refl : Reflexive Props.same_summary.
Proof. by intros st. Qed.

#[local] Instance same_summary_trans : Transitive Props.same_summary.
Proof. intros x y z H1 H2. unfold Props.same_summary in *. congruence. Qed.

#[local] Instance same_user_info_refl : Reflexive Props.same_user_info.
Proof. by intros st. Qed.

#[local] Instance same_user_info_trans : Transitive Props.same_user_info.
Proof. intros x y z H1 H2. unfold Props.same_user_info in *. congruence. Qed.

#[local] Instance same_organizations_refl : Reflexive Props.same_organizations.
Proof. by intros st. Qed.

#[local] Instance same_organizations_trans : Transitive Props.same_organizations.
Proof. intros x y z H1 H2. unfold Props.same_organizations in *. congruence. Qed.

(** The guarantee of a sequence of statements from those of its parts. *)
Ltac ensures_tac :=
  lazymatch goal with
  | |- Props.ensures (CollectorMain.save_data "summary.json" _ ≫= _) (λ _ _, True) _ =>
    apply ensures_returns; intros ?; eexists; reflexivity
  | |- Props.ensures (_ ≫= _) _ _ =>
    apply ensures_bind;
    [ apply _
    | try done; intros ???; apply transitivity
    | ensures_tac
    | intros ?; cbv beta; ensures_tac ]
  | |- Props.ensures (CollectorMain.print _) _ _ => apply ensures_print; done
  | |- Props.ensures (CollectorMain.now _) _ _ => apply ensures_now; done
  | |- Props.ensures (CollectorMain.exit _) _ _ => apply ensures_exit; apply _
  | |- Props.ensures (CollectorMain.call _) _ _ => apply ensures_call; apply _
  | |- Props.ensures (CollectorMain.call_fetch _) _ _ => apply ensures_call_fetch; apply _
  | |- Props.ensures (CollectorMain.save_data _ _) _ _ => apply ensures_save_data; done
  | |- Props.ensures (match ?t with _ => _ end) _ _ => destruct t; ensures_tac
  end.

(** One statement of [main] that returned: its effect on the state. *)
Ltac returned_step H :=
  let Hc := fresh "Hc" in
  apply bind_returned in H as (? & ? & Hc & H);
  unfold CollectorMain.print, CollectorMain.save_data, CollectorMain.now,
    CollectorMain.call, CollectorMain.call_fetch in Hc;
  cbn [CollectorMain.api_state CollectorMain.files CollectorMain.stdout] in Hc;
  apply pair_equal_spec in Hc as [Hc ?]; subst;
  lazymatch type of Hc with
  | Returned _ = Returned _ => injection Hc as Hc; subst
  | _ => idtac
  end.

Section ExtraCollector.
Import Collector CollectorMain.

(** X5: the Collector never changes [enterprises.json] or [README.md],
    however its run ends. *)
Theorem collector_leaves_foreign_files {W : Type} (api : github W)
    (TOKEN : option string) (fuel : nat) (s0 s1 : state W) (o : outcome unit) :
  main api TOKEN fuel s0 = (o, s1) →
  enterprises_json (CollectorMain.files s1) = enterprises_json (CollectorMain.files s0) ∧
  readme_md (CollectorMain.files s1) = readme_md (CollectorMain.files s0).
Proof.
  intros Hrun.
  assert (Props.ensures (main api TOKEN fuel)
            Props.same_foreign_files Props.same_foreign_files) as Hens.
  { unfold main. ensures_tac. }
  specialize (Hens s0 o s1 Hrun). by destruct o.
Qed.

Lemma collector_leaves_foreign_files_witness :
  enterprises_json Demo.collected = enterprises_json Demo.only_enterprises ∧
  readme_md Demo.collected = readme_md Demo.only_enterprises.
Proof.
  assert (main Demo.api (Some "token") 5 (Demo.start Demo.only_enterprises)
          = (Returned tt,
             (main Demo.api (Some "token") 5 (Demo.start Demo.only_enterprises)).2))
    as Hrun.
  { vm_compute. reflexivity. }
  unfold Demo.collected.
  exact (collector_leaves_foreign_files Demo.api (Some "token") 5
           (Demo.start Demo.only_enterprises) _ _ Hrun).
Defined.

(** X6: [summary.json] is written only by a run that completes: after a
    run that exits or raises, it is what it was before the run. *)
Theorem summary_written_only_on_completion {W : Type} (api : github W)
    (TOKEN : option string) (fuel : nat) (s0 s1 : state W) (o : outcome unit) :
  main api TOKEN fuel s0 = (o, s1) →
  Props.failed o →
  summary_json (CollectorMain.files s1) = summary_json (CollectorMain.files s0).
Proof.
  intros Hrun Hfailed.
  assert (Props.ensures (main api TOKEN fuel) (λ _ _, True) Props.same_summary) as Hens.
  { unfold main. ensures_tac. }
  specialize (Hens s0 o s1 Hrun). by destruct o.
Qed.

Lemma summary_written_only_on_completion_witness :
  (main Demo.api_without_repositories (Some "token") 5 (Demo.start Demo.partial_store)).1
  = Raised HTTPError ∧
  summary_json
    (CollectorMain.files
       (main Demo.api_without_repositories (Some "token") 5
          (Demo.start Demo.partial_store)).2)
  = summary_json Demo.partial_store ∧
  summary_json Demo.partial_store = Some Demo.partial_summary.
Proof.
  split; [vm_compute; reflexivity|]. split; [|reflexivity].
  apply (summary_written_only_on_completion Demo.api_without_repositories (Some "token") 5
           (Demo.start Demo.partial_store) _ (Raised HTTPError)).
  - vm_compute. reflexivity.
  - exact I.
Defined.

(** X7: nothing is rolled back.  With a token set, once the user info
    was fetched [user_info.json] holds it at the end of the run, and once
    the organizations were fetched too [organizations.json] holds them,
    however the run ends afterwards. *)
Theorem saved_snapshots_survive_failure {W : Type} (api : github W)
    (c : ascii) (token : string) (fuel : nat) (s0 s1 : state W) (o : outcome unit)
    (u : user_info) (w1 : W) :
  main api (Some (String c token)) fuel s0 = (o, s1) →
  q_viewer api (api_state s0) = (Some u, w1) →
  user_info_json (CollectorMain.files s1) = Some u ∧
  ∀ orgs, result (get_organizations api fuel w1) = Returned orgs →
          organizations_json (CollectorMain.files s1) = Some orgs.
Proof.
  intros Hrun Hviewer. unfold main in Hrun.
  rewrite !bind_print, bind_now, !bind_print in Hrun.
  cbn [api_state CollectorMain.files stdout] in Hrun.
  rewrite ?bind_print in Hrun. cbn [api_state CollectorMain.files stdout] in Hrun.
  rewrite bind_call in Hrun. unfold get_user_info in Hrun.
  cbn [api_state CollectorMain.files stdout] in Hrun.
  rewrite Hviewer in Hrun. cbv zeta in Hrun. cbn [fst snd] in Hrun.
  rewrite bind_save_data in Hrun. cbn [api_state CollectorMain.files stdout] in Hrun.
  split.
  - match type of Hrun with
    | ?rest ?s = _ =>
      assert (Props.ensures rest Props.same_user_info Props.same_user_info) as Hens
        by ensures_tac;
      specialize (Hens s o s1 Hrun)
    end.
    cbn [CollectorMain.files] in Hens. by destruct o.
  - intros orgs Horgs.
    rewrite !bind_print in Hrun. cbn [api_state CollectorMain.files stdout] in Hrun.
    rewrite bind_call_fetch in Hrun.
    cbn [api_state CollectorMain.files stdout] in Hrun.
    rewrite Horgs in Hrun. cbv zeta in Hrun.
    rewrite bind_save_data in Hrun. cbn [api_state CollectorMain.files stdout] in Hrun.
    match type of Hrun with
    | ?rest ?s = _ =>
      assert (Props.ensures rest Props.same_organizations Props.same_organizations)
        as Hens by ensures_tac;
      specialize (Hens s o s1 Hrun)
    end.
    cbn [CollectorMain.files] in Hens. by destruct o.
Qed.

Lemma saved_snapshots_survive_failure_witness :
  (main Demo.api_without_repositories (Some "token") 5 (Demo.start Demo.empty_store)).1
  = Raised HTTPError ∧
  user_info_json
    (CollectorMain.files
       (main Demo.api_without_repositories (Some "token") 5
          (Demo.start Demo.empty_store)).2)
  = Some {| ui_login := Some "drzo" |} ∧
  organizations_json
    (CollectorMain.files
       (main Demo.api_without_repositories (Some "token") 5
          (Demo.start Demo.empty_store)).2)
  = Some [Demo.org "cogcities" 12; Demo.org "regima-uk" 3; Demo.org "o9nn" 7].
Proof.
  split; [vm_compute; reflexivity|].
  assert (main Demo.api_without_repositories (Some "token") 5 (Demo.start Demo.empty_store)
          = (Raised HTTPError,
             (main Demo.api_without_repositories (Some "token") 5
                (Demo.start Demo.empty_store)).2)) as Hrun.
  { vm_compute. reflexivity. }
  destruct (saved_snapshots_survive_failure Demo.api_without_repositories "t" "oken" 5
              (Demo.start Demo.empty_store) _ (Raised HTTPError)
              {| ui_login := Some "drzo" |} 1%nat Hrun eq_refl) as [Huser Horgs].
  split; [exact Huser|]. apply Horgs. vm_compute. reflexivity.
Defined.

(** X8: with [GITHUB_TOKEN] unset or empty the Collector prints its
    banner and the error, exits with status 1, and has made no request and
    written no file. *)
Theorem missing_token_is_fatal {W : Type} (api : github W) (TOKEN : option string)
    (fuel : nat) (s0 : state W) :
  Props.token_missing TOKEN →
  main api TOKEN fuel s0
  = (Exited 1,
     {| api_state := api_state s0;
        files := CollectorMain.files s0;
        stdout := stdout s0 ++ Props.banner api s0
                    ++ ["ERROR: GITHUB_TOKEN environment variable not set"] |}).
Proof.
  intros [-> | ->]; unfold main;
    rewrite !bind_print, bind_now, !bind_print;
    cbn [api_state CollectorMain.files stdout];
    rewrite ?bind_print; cbn [api_state CollectorMain.files stdout];
    unfold exit, Props.banner; by rewrite <- !app_assoc.
Qed.

Lemma missing_token_is_fatal_witness :
  Props.token_missing (Some "") ∧
  (main Demo.api (Some "") 5 (Demo.start Demo.empty_store)).1 = Exited 1.
Proof.
  split; [by right|].
  rewrite (missing_token_is_fatal Demo.api (Some "") 5 (Demo.start Demo.empty_store)
             (or_intror eq_refl)).
  reflexivity.
Defined.

(** X9: after a run that completes, the summary agrees with the
    snapshots: each of its six counts is the number of items of the
    snapshot file written in the same run, its user is the login of the
    stored user info, and there are at most 1000 repositories and 500
    starred repositories. *)
Theorem summary_agrees_with_snapshots {W : Type} (api : github W)
    (TOKEN : option string) (fuel : nat) (s0 s1 : state W) :
  main api TOKEN fuel s0 = (Returned tt, s1) →
  ∃ s, summary_json (CollectorMain.files s1) = Some s ∧
       Props.summary_matches (CollectorMain.files s1) s.
Proof.
  unfold main. intros H.
  do 5 returned_step H.
  destruct TOKEN as [[|c token]|].
  1, 3: returned_step H; discriminate.
  do 32 returned_step H.
  unfold print in H. apply pair_equal_spec in H as [_ <-]. cbn [CollectorMain.files].
  eexists. split; [reflexivity|].
  unfold Props.summary_matches. do 8 eexists.
  do 7 (split; [reflexivity|]). split; [reflexivity|]. split; [reflexivity|].
  repeat match goal with
         | |- _ !! _ = Some _ ∧ _ =>
           split; [repeat (rewrite lookup_insert_ne by done); by rewrite lookup_insert_eq|]
         end.
  split.
  - match goal with
    | Hr : result (get_repositories _ 1000 _ _) = Returned _ |- _ =>
      apply (fetch_limit_truncates _ 1000) in Hr as [Hlen _]; [exact Hlen | lia]
    end.
  - match goal with
    | Hr : result (get_starred_repos _ 500 _ _) = Returned _ |- _ =>
      apply (fetch_limit_truncates _ 500) in Hr as [Hlen _]; [exact Hlen | lia]
    end.
Qed.

Lemma summary_agrees_with_snapshots_witness :
  ∃ s, summary_json Demo.collected = Some s ∧ Props.summary_matches Demo.collected s.
Proof.
  assert (main Demo.api (Some "token") 5 (Demo.start Demo.only_enterprises)
          = (Returned tt,
             (main Demo.api (Some "token") 5 (Demo.start Demo.only_enterprises)).2))
    as Hrun.
  { vm_compute. reflexivity. }
  unfold Demo.collected.
  exact (summary_agrees_with_snapshots Demo.api (Some "token") 5
           (Demo.start Demo.only_enterprises) _ Hrun).
Defined.

End ExtraCollector.

(** ** The Reporter's run, however it ends *)

Section ReporterOutcomes.
Import Reporter.
Variable percent_1f : Z → Z → string.

Lemma item_present (counts : gmap string Z) (k : string) (v : Z) :
  counts !! k = Some v → item counts k = Returned v.
Proof. intros H. unfold item. by rewrite H. Qed.

Lemma item_absent (counts : gmap string Z) (k : string) :
  counts !! k = None → item counts k = Raised (KeyError k).
Proof. intros H. unfold item. by rewrite H. Qed.

(** The first f-string when the six counts are there. *)
Lemma overview_with_counts (s : summary) (counts : gmap string Z)
    (organizations repositories followers following starred gists : Z) :
  sum_counts s = Some counts →
  counts !! "organizations" = Some organizations →
  counts !! "repositories" = Some repositories →
  counts !! "followers" = Some followers →
  counts !! "following" = Some following →
  counts !! "starred_repos" = Some starred →
  counts !! "gists" = Some gists →
  overview s
  = Returned (Spec.report_head (last_updated s)
                +:+ Spec.overview_head (enterprises_cell counts)
                +:+ Props.count_rows organizations repositories followers following
                      starred gists
                +:+ Py.text [""; "## 🏛️ Enterprises"; ""]).
Proof.
  intros Hc Ho Hr Hf Hg Hs Hgi. unfold overview. rewrite Hc.
  unfold mbind, outcome_bind, obind.
  rewrite (item_present _ _ _ Ho), (item_present _ _ _ Hr), (item_present _ _ _ Hf),
    (item_present _ _ _ Hg), (item_present _ _ _ Hs), (item_present _ _ _ Hgi).
  f_equal. unfold Spec.report_head, Spec.overview_head, Props.count_rows.
  rewrite <- !text_app. reflexivity.
Qed.

Lemma all_counts_present (counts : gmap string Z) :
  Forall (λ k, is_Some (counts !! k)) Props.count_keys →
  ∃ o r f g s gi,
    counts !! "organizations" = Some o ∧ counts !! "repositories" = Some r ∧
    counts !! "followers" = Some f ∧ counts !! "following" = Some g ∧
    counts !! "starred_repos" = Some s ∧ counts !! "gists" = Some gi.
Proof.
  unfold Props.count_keys. intros H.
  apply Forall_cons in H as [[o Ho] H]. apply Forall_cons in H as [[r Hr] H].
  apply Forall_cons in H as [[f Hf] H]. apply Forall_cons in H as [[g Hg] H].
  apply Forall_cons in H as [[s Hs] H]. apply Forall_cons in H as [[gi Hgi] H].
  by exists o, r, f, g, s, gi.
Qed.

(** The first f-string when one of the six counts is missing. *)
Lemma overview_first_missing (s : summary) (counts : gmap string Z) (key : string) :
  sum_counts s = Some counts → Props.first_missing counts key →
  overview s = Raised (KeyError key).
Proof.
  intros Hc (before & after & Hkeys & Hbefore & Hkey). unfold overview. rewrite Hc.
  unfold mbind, outcome_bind, obind. unfold Props.count_keys in Hkeys.
  repeat (destruct before as [|? before]; simpl in Hkeys;
          [ injection Hkeys as <- _; rewrite (item_absent _ _ Hkey); reflexivity
          | injection Hkeys as <- Hkeys;
            apply Forall_cons in Hbefore as [[? Hv] Hbefore];
            rewrite (item_present _ _ _ Hv); clear Hv ]).
  destruct before; discriminate Hkeys.
Qed.


Lemma summary_truthy_counts (s : summary) (counts : gmap string Z) :
  sum_counts s = Some counts → summary_truthy (Some s) = true.
Proof.
  intros H. unfold summary_truthy. rewrite H.
  by destruct (sum_timestamp s), (sum_user s).
Qed.




Lemma generate_readme_same_data (st : store) :
  Props.same_data st (files (generate_readme percent_1f st)).
Proof.
  destruct (generate_readme_cases percent_1f st)
    as [[[-> _] | ->] | (s & doc & _ & _ & ->)]; by repeat split.
Qed.

End ReporterOutcomes.

(** ** Counters and tallies *)

Section CounterFacts.

Lemma counter_get_incr (k k' : string) (d : list (string * Z)) :
  Props.counter_get k (Py.incr k' d)
  = (Props.counter_get k d + if String.eqb k k' then 1 else 0)%Z.
Proof.
  induction d as [|[k0 v] d IH]; cbn [Py.incr Props.counter_get].
  - destruct (String.eqb k k'); lia.
  - destruct (String.eqb_spec k' k0) as [-> | Hne]; cbn [Props.counter_get].
    + destruct (String.eqb k k0); lia.
    + destruct (String.eqb_spec k k0) as [-> | Hne'].
      * rewrite (proj2 (String.eqb_neq k0 k')) by congruence. lia.
      * exact IH.
Qed.

Lemma incr_keys (k : string) (d : list (string * Z)) :
  map fst (Py.incr k d) = if decide (k ∈ map fst d) then map fst d else map fst d ++ [k].
Proof.
  induction d as [|[k0 v] d IH]; cbn [Py.incr map fst].
  - rewrite decide_False by apply not_elem_of_nil. reflexivity.
  - destruct (String.eqb_spec k k0) as [-> | Hne]; cbn [map fst].
    + rewrite decide_True by apply list_elem_of_here. reflexivity.
    + rewrite IH. destruct (decide (k ∈ map fst d)) as [Hin | Hnin].
      * rewrite decide_True by (by apply list_elem_of_further). reflexivity.
      * rewrite decide_False; [reflexivity|].
        intros [?|?]%elem_of_cons; congruence.
Qed.

Lemma incr_keys_nodup (k : string) (d : list (string * Z)) :
  NoDup (map fst d) → NoDup (map fst (Py.incr k d)).
Proof.
  intros Hnd. rewrite incr_keys. case_decide as Hin; [exact Hnd|].
  apply NoDup_app. split; [exact Hnd|]. split; [|apply NoDup_singleton].
  intros x Hx Hk. apply list_elem_of_singleton in Hk. by subst.
Qed.

Lemma incr_positive (k : string) (d : list (string * Z)) :
  Forall (λ kv, (1 ≤ kv.2)%Z) d → Forall (λ kv, (1 ≤ kv.2)%Z) (Py.incr k d).
Proof.
  induction 1 as [|[k0 v] d Hv Hd IH]; cbn [Py.incr].
  - by repeat constructor.
  - destruct (String.eqb k k0); constructor; simpl in *; try lia; done.
Qed.

Lemma sum_values_positive (d : list (string * Z)) :
  Forall (λ kv, (1 ≤ kv.2)%Z) d → d ≠ [] → (0 < Py.sum_values d)%Z.
Proof.
  intros Hpos.
  assert (Hlen : (Z.of_nat (length d) ≤ Py.sum_values d)%Z).
  { induction Hpos as [|[k v] d Hv _ IH]; [reflexivity|].
    rewrite sum_values_cons. cbn [length snd] in *. lia. }
  intros Hne. destruct d; [done | cbn [length] in Hlen; lia].
Qed.

End CounterFacts.

Section TallyFacts.
Import Reporter.

Lemma archived_count_cons (repo : repository) (repos : list repository) :
  Props.archived_count (repo :: repos)
  = ((if Py.truthy (repo_isArchived repo) then 1 else 0) + Props.archived_count repos)%Z.
Proof.
  unfold Props.archived_count. rewrite filter_cons.
  destruct (Py.truthy (repo_isArchived repo)).
  - rewrite decide_True by reflexivity. simpl length. lia.
  - rewrite decide_False by discriminate. lia.
Qed.

Lemma with_language_cons (name : string) (repo : repository) (repos : list repository) :
  Props.with_language name (repo :: repos)
  = ((if language_truthy (repo_primaryLanguage repo)
      then if String.eqb name (language_name (repo_primaryLanguage repo)) then 1 else 0
      else 0)
     + Props.with_language name repos)%Z.
Proof.
  unfold Props.with_language. rewrite filter_cons.
  destruct (language_truthy (repo_primaryLanguage repo)).
  - destruct (String.eqb_spec name (language_name (repo_primaryLanguage repo))) as [Heq | Hne].
    + rewrite decide_True by done. simpl length. lia.
    + rewrite decide_False by (intros [_ ?]; congruence). lia.
  - rewrite decide_False by (intros [? _]; discriminate). lia.
Qed.

(** What the loop of [analyze_repositories] adds to the archived tally
    and to the two counters. *)
Lemma analyze_fold_counters (repos : list repository) (s : stats) :
  let s' := fold_left analyze_step repos s in
  (archived s' = archived s + Props.archived_count repos)%Z ∧
  (Py.sum_values (by_owner s') = Py.sum_values (by_owner s) + Z.of_nat (length repos))%Z ∧
  (∀ name, Props.counter_get name (languages s')
           = Props.counter_get name (languages s) + Props.with_language name repos)%Z ∧
  (NoDup (map fst (languages s)) → NoDup (map fst (languages s'))) ∧
  (Forall (λ kv, (1 ≤ kv.2)%Z) (languages s) → Forall (λ kv, (1 ≤ kv.2)%Z) (languages s')).
Proof.
  revert s. induction repos as [|repo repos IH]; intros s.
  - cbn [fold_left length]. unfold Props.archived_count, Props.with_language.
    rewrite !filter_nil. simpl. repeat split; intros; try done; lia.
  - cbn [fold_left]. specialize (IH (analyze_step s repo)).
    cbv zeta in IH |- *. destruct IH as (Ha & Ho & Hl & Hn & Hp).
    rewrite Ha, Ho, archived_count_cons. clear Ha Ho.
    split; [|split; [|split; [|split]]].
    + unfold analyze_step. cbn [archived].
      destruct (Py.truthy (repo_isArchived repo)); lia.
    + unfold analyze_step. cbn [by_owner length]. rewrite sum_values_incr. lia.
    + intros name. rewrite Hl, with_language_cons. unfold analyze_step. cbn [languages].
      destruct (language_truthy (repo_primaryLanguage repo)); [|lia].
      rewrite counter_get_incr. lia.
    + intros Hnd. apply Hn. unfold analyze_step. cbn [languages].
      destruct (language_truthy (repo_primaryLanguage repo)); [|exact Hnd].
      by apply incr_keys_nodup.
    + intros Hpos. apply Hp. unfold analyze_step. cbn [languages].
      destruct (language_truthy (repo_primaryLanguage repo)); [|exact Hpos].
      by apply incr_positive.
Qed.

Lemma archived_count_bounds (repos : list repository) :
  (0 ≤ Props.archived_count repos ≤ Z.of_nat (length repos))%Z.
Proof.
  unfold Props.archived_count.
  pose proof (length_filter (λ r, Py.truthy (repo_isArchived r) = true) repos). lia.
Qed.

End TallyFacts.

(** ** Strings cut to a budget *)

Section SliceFacts.

Lemma str_take_len (n : nat) (s : string) :
  Py.str_len (Py.str_take n s) = min n (Py.str_len s).
Proof.
  revert n. induction s as [|c s IH]; intros n; cbn [Py.str_take Py.str_len].
  - by rewrite Nat.min_0_r.
  - destruct (Py.is_continuation c) eqn:Hc.
    + cbn [Py.str_len]. rewrite Hc. apply IH.
    + destruct n as [|n]; [reflexivity|].
      cbn [Py.str_len]. rewrite Hc, IH. reflexivity.
Qed.

Lemma str_take_prefix (n : nat) (s : string) : Props.str_prefix (Py.str_take n s) s.
Proof.
  revert n. induction s as [|c s IH]; intros n; cbn [Py.str_take].
  - by exists "".
  - destruct (Py.is_continuation c).
    + destruct (IH n) as [rest Hrest]. exists rest.
      rewrite append_cons. by rewrite <- Hrest.
    + destruct n as [|n]; [by exists (String c s)|].
      destruct (IH n) as [rest Hrest]. exists rest.
      rewrite append_cons. by rewrite <- Hrest.
Qed.

Lemma str_take_all (n : nat) (s : string) :
  (Py.str_len s ≤ n)%nat → Py.str_take n s = s.
Proof.
  revert n. induction s as [|c s IH]; intros n; cbn [Py.str_take Py.str_len];
    [reflexivity|].
  destruct (Py.is_continuation c); intros Hlen.
  - by rewrite IH.
  - destruct n as [|n]; [lia|]. rewrite IH by lia. reflexivity.
Qed.

End SliceFacts.

Section KeyOrderFacts.

Lemma filter_keys_sublist {A B} (f : A * B → bool) (l : list (A * B)) :
  map fst (List.filter f l) `sublist_of` map fst l.
Proof.
  induction l as [|kv l IH]; simpl; [constructor|].
  destruct (f kv); simpl; [by apply sublist_skip | by apply sublist_cons].
Qed.

End KeyOrderFacts.

Section ExtraReporter.



(** X11: a summary that lacks one of the six counts makes the Reporter
    raise [KeyError] for the first missing one, in the order
    organizations, repositories, followers, following, starred_repos,
    gists; nothing is written and the closing lines of the banner are not
    printed. *)
Theorem missing_count_raises_key_error (percent_1f : Z → Z → string) (utcnow : string)
    (st : store) (s : summary) (counts : gmap string Z) (key : string) :
  summary_json st = Some s → sum_counts s = Some counts →
  Props.first_missing counts key →
  Reporter.main percent_1f utcnow st
  = {| Reporter.ended := Raised (KeyError key);
       Reporter.files := st;
       Reporter.stdout := [Reporter.rule; "DrZo Ecosystem Report Generator";
                           "Timestamp: " +:+ utcnow +:+ "Z"; Reporter.rule] |}.
Proof.
  intros Hs Hc Hmissing.
  unfold Reporter.main, Reporter.generate_readme, Reporter.load_json. cbv zeta.
  rewrite Hs, (summary_truthy_counts _ _ Hc).
  unfold Reporter.content. cbv zeta.
  rewrite (overview_first_missing s counts key Hc Hmissing).
  reflexivity.
Qed.

Lemma missing_count_raises_key_error_witness :
  Reporter.ended (Reporter.main Demo.percent_1f "2030-01-01T00:00:00" Demo.partial_store)
  = Raised (KeyError "repositories").
Proof.
  assert (Props.first_missing (<["organizations" := 3%Z]> ∅) "repositories") as Hmissing.
  { exists ["organizations"], ["followers"; "following"; "starred_repos"; "gists"].
    split; [reflexivity|]. split; [|vm_compute; reflexivity].
    repeat constructor. eexists. vm_compute. reflexivity. }
  rewrite (missing_count_raises_key_error Demo.percent_1f "2030-01-01T00:00:00"
             Demo.partial_store Demo.partial_summary (<["organizations" := 3%Z]> ∅)
             "repositories" eq_refl eq_refl Hmissing).
  reflexivity.
Defined.

(** X12: the Reporter never changes a file of [data/]: whatever the
    store holds and however the run ends, the nine snapshot files are
    afterwards what they were; only [README.md] can differ. *)
Theorem reporter_leaves_snapshots (percent_1f : Z → Z → string) (utcnow : string)
    (st : store) :
  Props.same_data st (Reporter.files (Reporter.main percent_1f utcnow st)).
Proof.
  destruct (main_ended percent_1f utcnow st) as [_ ->].
  apply generate_readme_same_data.
Qed.

(** X13: running the Reporter again on the files it left changes
    nothing: the second run, at whatever time, leaves exactly the files of
    the first. *)
Theorem reporter_is_idempotent (percent_1f : Z → Z → string) (utcnow1 utcnow2 : string)
    (st : store) :
  Reporter.files
    (Reporter.main percent_1f utcnow2
       (Reporter.files (Reporter.main percent_1f utcnow1 st)))
  = Reporter.files (Reporter.main percent_1f utcnow1 st).
Proof.
  destruct (main_ended percent_1f utcnow1 st) as [_ ->].
  destruct (main_ended percent_1f utcnow2
              (Reporter.files (Reporter.generate_readme percent_1f st))) as [_ ->].
  assert (Spec.same_snapshots st (Reporter.files (Reporter.generate_readme percent_1f st)))
    as Hsame.
  { destruct (generate_readme_same_data percent_1f st)
      as (_ & Ho & Hr & _ & _ & _ & _ & Hs & He). by repeat split. }
  destruct (generate_readme_same percent_1f _ _ Hsame)
    as (_ & _ & [[Hf1 Hf2] | (s & doc & rest & _ & _ & Hf1 & Hf2)]).
  - exact Hf2.
  - rewrite Hf2. by rewrite Hf1.
Qed.

(** X14: the other tallies of [analyze_repositories]: the archived count
    is the number of archived repositories, between 0 and the total; the
    per-owner counts (owner ['Unknown'] when missing) sum to the total;
    and no tally is negative. *)
Theorem repository_tallies (repos : list repository) :
  let total := Z.of_nat (length repos) in
  let s := Reporter.analyze_repositories repos in
  Reporter.archived s = Props.archived_count repos ∧
  (0 ≤ Reporter.archived s ≤ total)%Z ∧
  Py.sum_values (Reporter.by_owner s) = total ∧
  (0 ≤ Reporter.public s)%Z ∧ (0 ≤ Reporter.private s)%Z ∧
  (0 ≤ Reporter.forks s)%Z ∧ (0 ≤ Reporter.original s)%Z.
Proof.
  cbv zeta. unfold Reporter.analyze_repositories.
  set (s0 := {| Reporter.public := 0; Reporter.private := 0; Reporter.forks := 0;
                Reporter.original := 0; Reporter.archived := 0;
                Reporter.languages := []; Reporter.by_owner := [] |}).
  destruct (analyze_fold_counters repos s0) as (Ha & Ho & _).
  cbn [s0 Reporter.archived Reporter.by_owner] in Ha, Ho.
  change (Py.sum_values []) with 0%Z in Ho.
  pose proof (archived_count_bounds repos) as Hb.
  split; [lia|]. split; [lia|]. split; [lia|].
  assert (∀ (l : list repository) (s : Reporter.stats),
            (0 ≤ Reporter.public s)%Z ∧ (0 ≤ Reporter.private s)%Z ∧
            (0 ≤ Reporter.forks s)%Z ∧ (0 ≤ Reporter.original s)%Z →
            (0 ≤ Reporter.public (fold_left Reporter.analyze_step l s))%Z ∧
            (0 ≤ Reporter.private (fold_left Reporter.analyze_step l s))%Z ∧
            (0 ≤ Reporter.forks (fold_left Reporter.analyze_step l s))%Z ∧
            (0 ≤ Reporter.original (fold_left Reporter.analyze_step l s))%Z) as Hnonneg.
  { induction l as [|repo l IH]; intros s Hs; [exact Hs|].
    cbn [fold_left]. apply IH. unfold Reporter.analyze_step.
    cbn [Reporter.public Reporter.private Reporter.forks Reporter.original].
    destruct (Py.truthy (repo_isPrivate repo)), (Py.truthy (repo_isFork repo)); lia. }
  apply Hnonneg. cbn [s0 Reporter.public Reporter.private Reporter.forks Reporter.original].
  lia.
Qed.

(** X15: the language histogram of [analyze_repositories] has each
    language once, with the number of repositories of that language as
    its count, at least 1; a language of no repository is not there.  So
    when the histogram has a row its total is positive and the
    [else 0] of the percentage is never taken for a rendered row. *)
Theorem language_histogram_counts (repos : list repository) :
  let histogram := Reporter.languages (Reporter.analyze_repositories repos) in
  NoDup (map fst histogram) ∧
  (∀ name, Props.counter_get name histogram = Props.with_language name repos) ∧
  Forall (λ kv, (1 ≤ kv.2)%Z) histogram ∧
  (histogram ≠ [] → (0 < Py.sum_values histogram)%Z).
Proof.
  cbv zeta. unfold Reporter.analyze_repositories.
  set (s0 := {| Reporter.public := 0; Reporter.private := 0; Reporter.forks := 0;
                Reporter.original := 0; Reporter.archived := 0;
                Reporter.languages := []; Reporter.by_owner := [] |}).
  destruct (analyze_fold_counters repos s0) as (_ & _ & Hl & Hn & Hp).
  cbn [s0 Reporter.languages] in Hl, Hn, Hp.
  assert (Forall (λ kv : string * Z, (1 ≤ kv.2)%Z)
            (Reporter.languages (fold_left Reporter.analyze_step repos s0))) as Hpos.
  { apply Hp. constructor. }
  split; [apply Hn; constructor|]. split; [|split; [exact Hpos|]].
  - intros name. rewrite Hl. simpl. lia.
  - by apply sum_values_positive.
Qed.

Lemma language_histogram_counts_witness :
  Reporter.languages
    (Reporter.analyze_repositories
       [Demo.repo "drzo/a" (Some "Go") false true; Demo.repo "drzo/b" None true false;
        Demo.repo "drzo/c" (Some "Go") false false])
  = [("Go", 2%Z)] ∧
  (0 < Py.sum_values
         (Reporter.languages
            (Reporter.analyze_repositories
               [Demo.repo "drzo/a" (Some "Go") false true;
                Demo.repo "drzo/b" None true false;
                Demo.repo "drzo/c" (Some "Go") false false])))%Z.
Proof.
  split; [reflexivity|].
  apply (proj2 (proj2 (proj2 (language_histogram_counts
           [Demo.repo "drzo/a" (Some "Go") false true; Demo.repo "drzo/b" None true false;
            Demo.repo "drzo/c" (Some "Go") false false])))).
  discriminate.
Defined.

(** X16: the dictionary of [categorize_organizations] has its keys in
    the order of the seven category names, each at most once, and no
    empty list: the sections of the report come in that fixed order. *)
Theorem categories_in_fixed_order (orgs : list organization) :
  map fst (Reporter.categorize_organizations orgs) `sublist_of` Reporter.category_names ∧
  NoDup (map fst (Reporter.categorize_organizations orgs)) ∧
  Forall (λ kv, kv.2 ≠ []) (Reporter.categorize_organizations orgs).
Proof.
  assert (map fst (Reporter.categorize_organizations orgs)
            `sublist_of` Reporter.category_names) as Hsub.
  { rewrite categorize_organizations_eq.
    etransitivity; [apply filter_keys_sublist|].
    unfold Spec.filled. rewrite map_map. simpl. reflexivity. }
  split; [exact Hsub|]. split.
  - eapply sublist_NoDup; [apply category_names_nodup | exact Hsub].
  - apply Forall_forall. intros [k l] Hin.
    by apply elem_of_categorize in Hin as (_ & _ & Hne).
Qed.

(** X17: the description cell of an organization row is the description
    ('No description' when missing, null or empty) cut to the budget in
    characters: a prefix of it of [min budget len] characters, the whole
    of it when it has at most [budget] characters, with nothing added. *)
Theorem description_cell_is_cut (budget : nat) (org : organization) :
  let cell := Py.str_take budget (Props.description_or_default org) in
  Reporter.org_row budget org
  = "| [" +:+ Py.get (org_login org) "Unknown" +:+ "](https://github.com/"
      +:+ Py.get (org_login org) "Unknown" +:+ ") | "
      +:+ Py.str_int (Reporter.count_of (org_repositories org)) +:+ " | "
      +:+ Py.str_int (Reporter.count_of (org_membersWithRole org)) +:+ " | "
      +:+ cell +:+ " |" +:+ Py.nl ∧
  Py.str_len cell = min budget (Py.str_len (Props.description_or_default org)) ∧
  Props.str_prefix cell (Props.description_or_default org) ∧
  ((Py.str_len (Props.description_or_default org) ≤ budget)%nat →
   cell = Props.description_or_default org).
Proof.
  cbv zeta. split; [reflexivity|]. split; [apply str_take_len|].
  split; [apply str_take_prefix | apply str_take_all].
Qed.

Lemma description_cell_is_cut_witness :
  Py.str_len (Props.description_or_default Demo.org_accented) = 45%nat ∧
  Py.str_take 50 (Props.description_or_default Demo.org_accented)
  = Props.description_or_default Demo.org_accented ∧
  Py.str_take 50 (Props.description_or_default Demo.org_long)
  = "01234567890123456789012345678901234567890123456789" ∧
  Py.str_len (Py.str_take 50 (Props.description_or_default Demo.org_long))
  = min 50 (Py.str_len (Props.description_or_default Demo.org_long)).
Proof.
  split; [reflexivity|]. split; [|split; [reflexivity|]].
  - apply (description_cell_is_cut 50 Demo.org_accented). vm_compute. lia.
  - apply (description_cell_is_cut 50 Demo.org_long).
Defined.

End ExtraReporter.

Section ExtraEndToEnd.
Import Collector.

(** X18: from the Collector to the report.  After a Collector run that
    completes, the report the Reporter writes shows in its Overview table
    0 enterprises and then, in this order, the numbers of organizations,
    repositories, followers, following, starred repositories and gists
    that are in the snapshot files of that run. *)
Theorem overview_shows_snapshot_sizes {W : Type} (api : github W)
    (TOKEN : option string) (fuel : nat) (s0 s1 : CollectorMain.state W)
    (percent_1f : Z → Z → string) (utcnow : string) :
  CollectorMain.main api TOKEN fuel s0 = (Returned tt, s1) →
  ∃ orgs repos followers following starred gists timestamp rest,
    organizations_json (CollectorMain.files s1) = Some orgs ∧
    repositories_json (CollectorMain.files s1) = Some repos ∧
    followers_json (CollectorMain.files s1) = Some followers ∧
    following_json (CollectorMain.files s1) = Some following ∧
    starred_repos_json (CollectorMain.files s1) = Some starred ∧
    gists_json (CollectorMain.files s1) = Some gists ∧
    readme_md (Reporter.files (Reporter.main percent_1f utcnow (CollectorMain.files s1)))
    = Some (Spec.report_head timestamp +:+ Spec.overview_head "0"
              +:+ Props.count_rows (CollectorMain.len orgs) (CollectorMain.len repos)
                    (CollectorMain.len followers) (CollectorMain.len following)
                    (CollectorMain.len starred) (CollectorMain.len gists)
              +:+ rest).
Proof.
  intros Hrun.
  apply main_returned in Hrun
    as (t & u & orgs & repos & followers & following & starred & gists & Hfiles).
  rewrite Hfiles. clear Hfiles.
  set (s := CollectorMain.make_summary t u orgs repos followers following starred gists).
  set (st := Files.write_summary s _).
  destruct (main_ended percent_1f utcnow st) as [_ ->].
  assert (∃ counts, sum_counts s = Some counts ∧
            counts !! "organizations" = Some (CollectorMain.len orgs) ∧
            counts !! "repositories" = Some (CollectorMain.len repos) ∧
            counts !! "followers" = Some (CollectorMain.len followers) ∧
            counts !! "following" = Some (CollectorMain.len following) ∧
            counts !! "starred_repos" = Some (CollectorMain.len starred) ∧
            counts !! "gists" = Some (CollectorMain.len gists) ∧
            counts !! "enterprises" = None)
    as (counts & Hc & Ho & Hr & Hf & Hg & Hs & Hgi & Hnone).
  { eexists. split; [reflexivity|].
    repeat match goal with
           | |- _ !! _ = Some _ ∧ _ =>
             split; [repeat (rewrite lookup_insert_ne by done); by rewrite lookup_insert_eq|]
           end.
    repeat (rewrite lookup_insert_ne by done). apply lookup_empty. }
  exists orgs, repos, followers, following, starred, gists, (Reporter.last_updated s).
  unfold Reporter.generate_readme, Reporter.load_json. cbv zeta.
  change (summary_json st) with (Some s).
  rewrite (summary_truthy_counts _ _ Hc).
  unfold Reporter.content. cbv zeta.
  rewrite (overview_with_counts s counts _ _ _ _ _ _ Hc Ho Hr Hf Hg Hs Hgi).
  unfold mbind, Reporter.outcome_bind, Reporter.obind.
  cbn [Reporter.files Files.write_readme readme_md].
  unfold Reporter.enterprises_cell. rewrite Hnone.
  change (Py.str_int (Py.get None 0%Z)) with "0".
  eexists. do 6 (split; [reflexivity|]). f_equal.
  rewrite !append_assoc. reflexivity.
Qed.

Lemma overview_shows_snapshot_sizes_witness :
  (λ doc, Py.startswith doc
            (Spec.report_head "2024-06-01T00:00:00.13Z" +:+ Spec.overview_head "0"
               +:+ Props.count_rows 3 3 1 1 2 1))
    <$> readme_md (Reporter.files
                     (Reporter.main Demo.percent_1f "2030-01-01T00:00:00" Demo.collected))
  = Some true ∧
  ∃ orgs, organizations_json Demo.collected = Some orgs ∧ length orgs = 3%nat.
Proof.
  split; [vm_compute; reflexivity|].
  assert (CollectorMain.main Demo.api (Some "token") 5 (Demo.start Demo.only_enterprises)
          = (Returned tt,
             (CollectorMain.main Demo.api (Some "token") 5
                (Demo.start Demo.only_enterprises)).2)) as Hrun.
  { vm_compute. reflexivity. }
  destruct (overview_shows_snapshot_sizes Demo.api (Some "token") 5
              (Demo.start Demo.only_enterprises) _ Demo.percent_1f
              "2030-01-01T00:00:00" Hrun)
    as (orgs & _ & _ & _ & _ & _ & _ & _ & Horgs & _).
  exists orgs. split; [exact Horgs|].
  unfold Demo.collected in Horgs. vm_compute in Horgs. by injection Horgs as <-.
Defined.

End ExtraEndToEnd.

Section OverviewEnterprises.
Import Collector.

(** C10: the [Enterprises] cell of the Overview table is
    [summary['counts'].get('enterprises', 0)]: for any summary with the
    six counts the report is written and shows the count stored under
    ['enterprises'], 0 when the key is absent.  A summary written by the
    Collector has exactly the six counts organizations, repositories,
    followers, following, starred_repos and gists, and the Collector
    leaves [enterprises.json] as it found it; so the report made from
    the files of a completed Collector run is written, and shows
    [| Enterprises | 0 |], whatever [enterprises.json] holds. *)
Theorem enterprises_count_zero (percent_1f : Z → Z → string) (utcnow : string) :
  (∀ st s counts,
      summary_json st = Some s → sum_counts s = Some counts →
      Forall (λ k, is_Some (counts !! k)) Props.count_keys →
      Reporter.ended (Reporter.main percent_1f utcnow st) = Returned tt ∧
      ∃ rest,
        readme_md (Reporter.files (Reporter.main percent_1f utcnow st))
        = Some (Spec.report_head (Reporter.last_updated s)
                  +:+ Spec.overview_head
                        (Py.str_int (Py.get (counts !! "enterprises") 0%Z))
                  +:+ rest)) ∧
  (∀ (W : Type) (api : github W) (TOKEN : option string) (fuel : nat)
     (s0 s1 : CollectorMain.state W),
      CollectorMain.main api TOKEN fuel s0 = (Returned tt, s1) →
      enterprises_json (CollectorMain.files s1) = enterprises_json (CollectorMain.files s0) ∧
      (∃ s counts,
          summary_json (CollectorMain.files s1) = Some s ∧ sum_counts s = Some counts ∧
          dom counts = {["organizations"; "repositories"; "followers"; "following";
                         "starred_repos"; "gists"]} ∧
          counts !! "enterprises" = None ∧
          Reporter.enterprises_cell counts = "0") ∧
      Reporter.ended (Reporter.main percent_1f utcnow (CollectorMain.files s1))
      = Returned tt ∧
      ∃ timestamp rest,
        readme_md (Reporter.files
                     (Reporter.main percent_1f utcnow (CollectorMain.files s1)))
        = Some (Spec.report_head timestamp +:+ Spec.overview_head "0" +:+ rest)).
Proof.
  assert (Hgen : ∀ st s counts,
            summary_json st = Some s → sum_counts s = Some counts →
            Forall (λ k, is_Some (counts !! k)) Props.count_keys →
            Reporter.ended (Reporter.main percent_1f utcnow st) = Returned tt ∧
            ∃ rest,
              readme_md (Reporter.files (Reporter.main percent_1f utcnow st))
              = Some (Spec.report_head (Reporter.last_updated s)
                        +:+ Spec.overview_head
                              (Py.str_int (Py.get (counts !! "enterprises") 0%Z))
                        +:+ rest)).
  { intros st s counts Hs Hc Hall.
    destruct (all_counts_present _ Hall)
      as (o & r & f & g & sr & gi & Ho & Hr & Hf & Hg & Hsr & Hgi).
    destruct (main_ended percent_1f utcnow st) as [-> ->].
    unfold Reporter.generate_readme, Reporter.load_json. cbv zeta.
    rewrite Hs, (summary_truthy_counts _ _ Hc).
    unfold Reporter.content. cbv zeta.
    rewrite (overview_with_counts s counts o r f g sr gi Hc Ho Hr Hf Hg Hsr Hgi).
    unfold mbind, Reporter.outcome_bind, Reporter.obind.
    cbn [Reporter.ended Reporter.files Files.write_readme readme_md].
    split; [reflexivity|]. eexists. f_equal.
    unfold Reporter.enterprises_cell. rewrite !append_assoc. reflexivity. }
  split; [exact Hgen|].
  intros W api TOKEN fuel s0 s1 Hrun.
  apply main_returned in Hrun
    as (t & u & orgs & repos & followers & following & starred & gists & Hfiles).
  rewrite Hfiles. clear Hfiles.
  set (s := CollectorMain.make_summary t u orgs repos followers following starred gists).
  set (st := Files.write_summary s _).
  assert (∃ counts, sum_counts s = Some counts ∧
            dom counts = {["organizations"; "repositories"; "followers"; "following";
                           "starred_repos"; "gists"]} ∧
            counts !! "enterprises" = None ∧
            Forall (λ k, is_Some (counts !! k)) Props.count_keys)
    as (counts & Hcounts & Hdom & Hnone & Hall).
  { eexists. split; [reflexivity|]. split; [|split].
    - rewrite !dom_insert_L, dom_empty_L. set_solver.
    - repeat (rewrite lookup_insert_ne by done). apply lookup_empty.
    - unfold Props.count_keys.
      repeat (constructor;
              [eexists; repeat (rewrite lookup_insert_ne by done);
               by rewrite lookup_insert_eq|]).
      constructor. }
  assert (Reporter.enterprises_cell counts = "0") as Hcell.
  { unfold Reporter.enterprises_cell. by rewrite Hnone. }
  split; [reflexivity|]. split; [by exists s, counts|].
  destruct (Hgen st s counts eq_refl Hcounts Hall) as [Hended [rest Hdoc]].
  split; [exact Hended|].
  exists (Reporter.last_updated s), rest. rewrite Hdoc, Hnone. reflexivity.
Qed.

Lemma enterprises_count_zero_witness :
  (∃ rest,
     readme_md (Reporter.files
                  (Reporter.main Demo.percent_1f "2030-01-01T00:00:00"
                     Demo.store_with_enterprises))
     = Some (Spec.report_head "2024-06-01T00:00:00Z" +:+ Spec.overview_head "5" +:+ rest)) ∧
  enterprises_json Demo.collected = Some Demo.enterprises ∧
  ∃ timestamp rest,
    readme_md (Reporter.files
                 (Reporter.main Demo.percent_1f "2030-01-01T00:00:00" Demo.collected))
    = Some (Spec.report_head timestamp +:+ Spec.overview_head "0" +:+ rest).
Proof.
  split; [|split; [vm_compute; reflexivity|]].
  - assert (Forall (λ k, is_Some (<["enterprises" := 5%Z]>
                                  (<["gists" := 1%Z]>
                                  (<["starred_repos" := 2%Z]>
                                  (<["following" := 1%Z]>
                                  (<["followers" := 1%Z]>
                                  (<["repositories" := 3%Z]>
                                  (<["organizations" := 3%Z]> (∅ : gmap string Z)))))))
                                  !! k))
              Props.count_keys) as Hall.
    { repeat constructor; eexists; vm_compute; reflexivity. }
    exact (proj2 (proj1 (enterprises_count_zero Demo.percent_1f "2030-01-01T00:00:00")
                    Demo.store_with_enterprises Demo.summary_with_enterprises _
                    eq_refl eq_refl Hall)).
  - assert (CollectorMain.main Demo.api (Some "token") 5 (Demo.start Demo.only_enterprises)
            = (Returned tt,
               (CollectorMain.main Demo.api (Some "token") 5
                  (Demo.start Demo.only_enterprises)).2)) as Hrun.
    { vm_compute. reflexivity. }
    unfold Demo.collected.
    exact (proj2 (proj2 (proj2
             (proj2 (enterprises_count_zero Demo.percent_1f "2030-01-01T00:00:00")
                nat Demo.api (Some "token") 5 (Demo.start Demo.only_enterprises) _
                Hrun)))).
Defined.

End OverviewEnterprises.
